(** * The IoT sensor ingestion pipeline

    A shallow embedding of [sensor_config.py], [sensor_processor.py] and
    [iot_manager.py]: the sensor catalogue, the validator and enricher of
    [SensorDataProcessor], and the store, router, dispatcher and connection
    logic of [IoTManager].

    Python values are modelled by the JSON-shaped type [json]; a Python
    [dict] decoded from JSON is an association list in insertion order;
    the manager's own dictionaries are finite maps.  A Python [float] is a
    rational or one of the three special values, so every statement
    quantified over [pyfloat] covers every IEEE double. *)

From Stdlib Require Import ZArith QArith Lia.
From stdpp Require Import gmap strings list fin_maps.

Set Warnings "-register-all".
Local Open Scope Z_scope.

(** ** Python values *)

Module Py.

(** [float]: the finite values are rationals (every double is one). *)
Inductive pyfloat : Type :=
  | Fin (q : Q)
  | PosInf
  | NegInf
  | NaN.

(** [a <= b] on floats; comparisons with NaN are false. *)
Definition fle (a b : pyfloat) : bool :=
  match a, b with
  | NaN, _ | _, NaN => false
  | NegInf, _ => true
  | _, PosInf => true
  | Fin x, Fin y => Qle_bool x y
  | _, _ => false
  end.

(** An [int] compared with a float: Python compares the exact values. *)
Definition of_int (n : Z) : pyfloat := Fin (inject_Z n).

(** The chained comparison [lo <= v <= hi]. *)
Definition between (lo v hi : pyfloat) : bool := fle lo v && fle v hi.

(** Values produced by [json.loads]. *)
Inductive json : Type :=
  | JNull
  | JBool (b : bool)
  | JInt (n : Z)
  | JFloat (f : pyfloat)
  | JStr (s : string)
  | JList (l : list json)
  | JDict (d : list (string * json)).

(** The exceptions the modelled code can meet; all derive from
    [Exception]. *)
Inductive exn : Type :=
  | KeyError
  | IndexError
  | TypeError
  | ValueError
  | OverflowError
  | AttributeError
  | JSONDecodeError
  | ConnectionError
  | OtherError (tag : nat).

Inductive result (A : Type) : Type :=
  | Ok (a : A)
  | Raise (e : exn).
Arguments Ok {A} a.
Arguments Raise {A} e.

(** Sequencing: an exception cuts the rest short.  The instances give
    the notation [x ← m; k]. *)
Definition bind {A B} (k : A -> result B) (m : result A) : result B :=
  match m with
  | Ok a => k a
  | Raise e => Raise e
  end.

#[export] Instance result_ret : MRet result := fun A a => Ok a.
#[export] Instance result_bind : MBind result := fun A B k m => bind k m.

(** *** dict operations on association lists *)

Fixpoint dict_get (k : string) (d : list (string * json)) : option json :=
  match d with
  | [] => None
  | (k', v) :: rest => if String.eqb k k' then Some v else dict_get k rest
  end.

Definition dict_has (k : string) (d : list (string * json)) : bool :=
  match dict_get k d with Some _ => true | None => false end.

(** [d[k] = v]: an existing key keeps its position, a new key goes last. *)
Fixpoint dict_set (k : string) (v : json) (d : list (string * json))
  : list (string * json) :=
  match d with
  | [] => [(k, v)]
  | (k', v') :: rest =>
      if String.eqb k k' then (k, v) :: rest else (k', v') :: dict_set k v rest
  end.

(** [sub in s] on strings is a substring test. *)
Fixpoint is_infix (sub s : string) : bool :=
  String.prefix sub s ||
  match s with
  | EmptyString => false
  | String _ rest => is_infix sub rest
  end.

Definition is_str (k : string) (v : json) : bool :=
  match v with JStr s => String.eqb k s | _ => false end.

(** [k in x] for a string [k]: key membership on a dict, substring on a
    str, element membership on a list, TypeError otherwise. *)
Definition py_in (k : string) (x : json) : result bool :=
  match x with
  | JDict d => Ok (dict_has k d)
  | JStr s => Ok (is_infix k s)
  | JList l => Ok (existsb (is_str k) l)
  | _ => Raise TypeError
  end.

(** [x.get(k)]: only a dict has the method; a missing key gives None. *)
Definition py_get (x : json) (k : string) : result json :=
  match x with
  | JDict d => Ok (default JNull (dict_get k d))
  | _ => Raise AttributeError
  end.

(** [x.get(k, {})]. *)
Definition py_get_or_empty (x : json) (k : string) : result json :=
  match x with
  | JDict d => Ok (default (JDict []) (dict_get k d))
  | _ => Raise AttributeError
  end.

(** [x[k]] for a string [k]. *)
Definition py_getitem (x : json) (k : string) : result json :=
  match x with
  | JDict d =>
      match dict_get k d with Some v => Ok v | None => Raise KeyError end
  | JStr _ | JList _ => Raise TypeError
  | _ => Raise TypeError
  end.

(** Whether a value can be a dict key or be looked up in one. *)
Definition hashable (x : json) : bool :=
  match x with
  | JList _ | JDict _ => false
  | _ => true
  end.

(** Truth value of an object. *)
Definition truthy (x : json) : bool :=
  match x with
  | JNull => false
  | JBool b => b
  | JInt n => negb (n =? 0)
  | JFloat (Fin q) => negb (Qeq_bool q 0)
  | JFloat _ => true
  | JStr s => negb (String.eqb s EmptyString)
  | JList l => match l with [] => false | _ => true end
  | JDict d => match d with [] => false | _ => true end
  end.

(** [isinstance(x, (int, float))]; bool is a subclass of int. *)
Definition is_number (x : json) : bool :=
  match x with
  | JInt _ | JFloat _ | JBool _ => true
  | _ => false
  end.

(** The value of a number in comparisons with floats. *)
Definition number_value (x : json) : pyfloat :=
  match x with
  | JInt n => of_int n
  | JFloat f => f
  | JBool b => of_int (if b then 1 else 0)
  | _ => NaN
  end.

(** [float(n)] for an int: round to 53 significant bits, ties to even;
    OverflowError from 2^1024 on. *)
Definition float_of_int (n : Z) : result pyfloat :=
  let a := Z.abs n in
  if a <? 2 ^ 53 then Ok (of_int n)
  else
    let sh := Z.log2 a + 1 - 53 in
    let q := Z.shiftr a sh in
    let r := Z.land a (Z.ones sh) in
    let half := Z.shiftl 1 (sh - 1) in
    let up := if (half <? r) || ((r =? half) && Z.odd q) then 1 else 0 in
    let m := Z.shiftl (q + up) sh in
    if 2 ^ 1024 <=? m then Raise OverflowError
    else Ok (of_int (Z.sgn n * m)).

Section Float.
(** [float(s)] for a str is the interpreter's parser: [None] when it
    raises ValueError. *)
Variable float_of_string : string -> option pyfloat.

(** The builtin [float(x)]. *)
Definition py_float (x : json) : result pyfloat :=
  match x with
  | JInt n => float_of_int n
  | JFloat f => Ok f
  | JBool b => Ok (of_int (if b then 1 else 0))
  | JStr s =>
      match float_of_string s with
      | Some f => Ok f
      | None => Raise ValueError
      end
  | JNull | JList _ | JDict _ => Raise TypeError
  end.
End Float.

End Py.

Import Py.

(** ** sensor_config.py *)

Module Config.

(** One entry of [SENSOR_TYPES].  [thresholds] keeps the order in which the
    dict literal lists its bands; the [alert_levels] and [capabilities] of
    some entries are read by none of the functions below and are left out. *)
Record sensor_type_def : Type := {
  units : string;
  valid_range : Z * Z;
  thresholds : list (string * (Z * Z))
}.

Definition SENSOR_TYPES : list (string * sensor_type_def) := [
  ("air_quality",
   {| units := "AQI"; valid_range := (0, 500);
      thresholds := [("good", (0, 50)); ("moderate", (51, 100));
                     ("unhealthy_sensitive", (101, 150));
                     ("unhealthy", (151, 200));
                     ("very_unhealthy", (201, 300));
                     ("hazardous", (301, 500))] |});
  ("temperature",
   {| units := "°C"; valid_range := (-50, 100);
      thresholds := [("very_cold", (-50, 0)); ("cold", (0, 15));
                     ("moderate", (15, 25)); ("warm", (25, 35));
                     ("hot", (35, 100))] |});
  ("humidity",
   {| units := "%"; valid_range := (0, 100);
      thresholds := [("very_dry", (0, 20)); ("dry", (20, 40));
                     ("moderate", (40, 60)); ("humid", (60, 80));
                     ("very_humid", (80, 100))] |});
  ("noise",
   {| units := "dB"; valid_range := (0, 200);
      thresholds := [("quiet", (0, 30)); ("moderate", (30, 60));
                     ("loud", (60, 90)); ("very_loud", (90, 120));
                     ("dangerous", (120, 200))] |});
  ("traffic",
   {| units := "%"; valid_range := (0, 100);
      thresholds := [("light", (0, 20)); ("moderate", (20, 40));
                     ("heavy", (40, 70)); ("congested", (70, 90));
                     ("gridlock", (90, 100))] |});
  ("flood",
   {| units := "mm"; valid_range := (0, 1000);
      thresholds := [("normal", (0, 30)); ("attention", (31, 50));
                     ("alert", (51, 100)); ("danger", (101, 200));
                     ("critical", (201, 1000))] |});
  ("accidents",
   {| units := "ocorrências/dia"; valid_range := (0, 100);
      thresholds := [("baixo", (0, 5)); ("moderado", (6, 15));
                     ("alto", (16, 30)); ("critico", (31, 100))] |});
  ("crime_rate",
   {| units := "ocorrências/dia"; valid_range := (0, 1000);
      thresholds := [("baixo", (0, 10)); ("moderado", (11, 30));
                     ("alto", (31, 50)); ("critico", (51, 1000))] |});
  ("energy_consumption",
   {| units := "MW"; valid_range := (0, 1000);
      thresholds := [("baixo", (0, 100)); ("normal", (101, 300));
                     ("alto", (301, 600)); ("critico", (601, 1000))] |});
  ("waste_collection",
   {| units := "ton/dia"; valid_range := (0, 1000);
      thresholds := [("baixo", (0, 50)); ("normal", (51, 200));
                     ("alto", (201, 500)); ("critico", (501, 1000))] |});
  ("smart_camera",
   {| units := "status"; valid_range := (0, 1);
      thresholds := [("offline", (0, 0)); ("online", (1, 1))] |});
  ("drone",
   {| units := "status"; valid_range := (0, 1);
      thresholds := [("grounded", (0, 0)); ("patrolling", (1, 1))] |})
].

(** [ZONES]: each zone with its [sensor_types] list.  The centre
    coordinates of a zone are read by none of the functions below. *)
Definition ZONES : list (string * list string) := [
  ("Centro", ["air_quality"; "traffic"; "noise"; "temperature"; "humidity";
              "flood"; "smart_camera"; "drone"]);
  ("Zona Norte", ["air_quality"; "traffic"; "temperature"; "humidity";
                  "flood"; "smart_camera"; "drone"]);
  ("Zona Sul", ["air_quality"; "traffic"; "temperature"; "humidity";
                "flood"; "smart_camera"]);
  ("Zona Leste", ["air_quality"; "traffic"; "noise"; "temperature";
                  "humidity"; "flood"; "smart_camera"]);
  ("Zona Oeste", ["air_quality"; "traffic"; "temperature"; "humidity";
                  "flood"; "smart_camera"])
].

(** [VALIDATION_RULES]. *)
Definition required_fields : list string :=
  ["value"; "unit"; "timestamp"; "sensor_id"; "location"].

Definition timestamp_format : string := "%Y-%m-%dT%H:%M:%S.%f".

Definition location_fields : list string := ["zone"; "coordinates"].

(** The coordinate bounds are the doubles written -5.2, -5.1, -37.4 and
    -37.3, given here by their exact values. *)
Definition lat_range : pyfloat * pyfloat :=
  (Fin (-5854679515581645 # 1125899906842624),
   Fin (-2871044762448691 # 562949953421312)).

Definition lon_range : pyfloat * pyfloat :=
  (Fin (-5263582064489267 # 140737488355328),
   Fin (-2624754157826867 # 70368744177664)).

(** Lookup in a dict literal keyed by strings. *)
Fixpoint assoc {A} (k : string) (l : list (string * A)) : option A :=
  match l with
  | [] => None
  | (k', v) :: rest => if String.eqb k k' then Some v else assoc k rest
  end.

(** [x in D] / [D[x]] for a dict [D] with str keys and an arbitrary
    object [x]: an unhashable object raises TypeError, an object that is
    not a str equals no key. *)
Definition lookup_obj {A} (x : json) (l : list (string * A))
  : result (option A) :=
  match x with
  | JStr s => Ok (assoc s l)
  | JList _ | JDict _ => Raise TypeError
  | _ => Ok None
  end.

End Config.

(** ** sensor_processor.py *)

Module Processor.
Import Config.

(** The second component of the pair returned by [validate_sensor_data]:
    one constructor per message the function can return. *)
Inductive rejection : Type :=
  | MissingField (field : string)          (* Campo obrigatório ausente *)
  | InvalidSensorType (sensor_type : json) (* Tipo de sensor inválido *)
  | ValueOutOfRange (value : pyfloat) (range : Z * Z)
                                           (* Valor ... fora do range válido *)
  | InvalidValue                           (* Valor do sensor inválido *)
  | InvalidTimestamp                       (* Formato de timestamp inválido *)
  | InvalidLocation                        (* Formato de localização inválido *)
  | InvalidCoordinates                     (* Coordenadas inválidas *)
  | CoordinatesOutOfBounds                 (* Coordenadas fora do range *)
  | InvalidZone (zone : json)              (* Zona inválida *)
  | ValidationError (e : exn).             (* Erro de validação *)

(** [(True, None)] or [(False, message)]. *)
Inductive verdict : Type :=
  | Accept
  | Reject (r : rejection).

Section WithRuntime.
(** [float] on a str and [datetime.strptime] with the fixed format are the
    interpreter's; [strptime_ok s] says that parsing [s] raises nothing. *)
Variable float_of_string : string -> option pyfloat.
Variable strptime_ok : string -> bool.

(** The loop [for field in fields: if field not in data: return ...]:
    the first field that is missing, if any. *)
Fixpoint first_missing (fields : list string) (data : json)
  : result (option string) :=
  match fields with
  | [] => Ok None
  | f :: rest =>
      b ← py_in f data;
      if b : bool then first_missing rest data else Ok (Some f)
  end.

(** [all(field in x for field in fields)], left to right, stopping at the
    first field that is missing. *)
Fixpoint all_in (fields : list string) (x : json) : result bool :=
  match fields with
  | [] => Ok true
  | f :: rest =>
      b ← py_in f x;
      if b : bool then all_in rest x else Ok false
  end.

(** [datetime.strptime(x, timestamp_format)], result dropped. *)
Definition py_strptime (x : json) : result unit :=
  match x with
  | JStr s => if strptime_ok s then Ok tt else Raise ValueError
  | _ => Raise TypeError
  end.

Definition in_valid_range (def : sensor_type_def) (value : pyfloat) : bool :=
  between (of_int (fst (valid_range def))) value
          (of_int (snd (valid_range def))).

(** The body of the inner [try] around the value: [Some r] when it
    returns the rejection [r]. *)
Definition value_check (data : json) (def : sensor_type_def)
  : result (option rejection) :=
  raw ← py_getitem data "value";
  value ← py_float float_of_string raw;
  if in_valid_range def value then Ok None
  else Ok (Some (ValueOutOfRange value (valid_range def))).

Definition in_bounds (lat lon : json) : bool :=
  between (fst lat_range) (number_value lat) (snd lat_range) &&
  between (fst lon_range) (number_value lon) (snd lon_range).

(** The checks on the location, the coordinates and the zone. *)
Definition location_checks (data : json) : result verdict :=
  location ← py_get_or_empty data "location";
  present ← all_in location_fields location;
  if negb present then Ok (Reject InvalidLocation)
  else
    coords ← py_get_or_empty location "coordinates";
    lat ← py_get coords "lat";
    lon ← py_get coords "lon";
    if negb (is_number lat) || negb (is_number lon)
    then Ok (Reject InvalidCoordinates)
    else if negb (in_bounds lat lon)
    then Ok (Reject CoordinatesOutOfBounds)
    else
      zone ← py_getitem location "zone";
      known ← lookup_obj zone ZONES;
      match known with
      | None => Ok (Reject (InvalidZone zone))
      | Some _ => Ok Accept
      end.

(** The body of the outer [try] of [validate_sensor_data]. *)
Definition validate_body (data : json) : result verdict :=
  missing ← first_missing required_fields data;
  match missing with
  | Some f => Ok (Reject (MissingField f))
  | None =>
      sensor_type ← py_get data "sensor_type";
      entry ← lookup_obj sensor_type SENSOR_TYPES;
      match entry with
      | None => Ok (Reject (InvalidSensorType sensor_type))
      | Some def =>
          match value_check data def with
          | Raise ValueError | Raise TypeError => Ok (Reject InvalidValue)
          | Raise e => Raise e
          | Ok (Some r) => Ok (Reject r)
          | Ok None =>
              match ts ← py_getitem data "timestamp"; py_strptime ts with
              | Raise ValueError => Ok (Reject InvalidTimestamp)
              | Raise e => Raise e
              | Ok _ => location_checks data
              end
          end
      end
  end.

(** [SensorDataProcessor.validate_sensor_data]. *)
Definition validate_sensor_data (data : json) : verdict :=
  match validate_body data with
  | Ok v => v
  | Raise e => Reject (ValidationError e)
  end.

(** [next((cat for cat, (min_val, max_val) in thresholds.items()
          if min_val <= value <= max_val), "unknown")]. *)
Fixpoint categorize (thresholds : list (string * (Z * Z))) (value : pyfloat)
  : string :=
  match thresholds with
  | [] => "unknown"
  | (cat, (min_val, max_val)) :: rest =>
      if between (of_int min_val) value (of_int max_val) then cat
      else categorize rest value
  end.

(** The dict display [{**data, "processed_timestamp": ..., ...}]. *)
Definition enrich (d : list (string * json)) (now category trend unit_ : string)
  : list (string * json) :=
  dict_set "unit" (JStr unit_)
    (dict_set "trend" (JStr trend)
       (dict_set "status_category" (JStr category)
          (dict_set "processed_timestamp" (JStr now) d))).

(** The body of the [try] of [process_sensor_data]; [now] is what
    [datetime.now().isoformat()] returns at the call. *)
Definition process_body (now : string) (data : json) : result json :=
  sensor_type ← py_getitem data "sensor_type";
  raw ← py_getitem data "value";
  value ← py_float float_of_string raw;
  entry ← lookup_obj sensor_type SENSOR_TYPES;
  match entry with
  | None => Raise KeyError
  | Some def =>
      let category := categorize (thresholds def) value in
      let trend := "stable" in
      match data with
      | JDict d => Ok (JDict (enrich d now category trend (units def)))
      | _ => Raise TypeError
      end
  end.

(** [SensorDataProcessor.process_sensor_data]: on any exception the input
    is returned as it is. *)
Definition process_sensor_data (now : string) (data : json) : json :=
  match process_body now data with
  | Ok processed => processed
  | Raise _ => data
  end.

End WithRuntime.
End Processor.

(** ** iot_manager.py *)

Module Manager.
Import Config Processor.

(** A registered callback: an identity, and what a call on a processed
    reading does as far as [on_message] can tell, that is return ([None])
    or raise an exception.  Callbacks are taken to be observers: one that
    re-enters the manager or mutates the reading it is handed is outside
    this model. *)
Record callback : Type := {
  cb_id : nat;
  cb_run : json -> option exn
}.

(** The attributes of an [IoTManager] that the methods below read or
    write.  ([broker], [port] and [keepalive] are stored by [connect] and
    read by nothing.) *)
Record manager : Type := {
  sensor_data : gmap string (gmap string json);
  callbacks : gmap string (list callback);
  data_buffer : gmap string (list json);
  buffer_size : nat;
  connected : bool;
  reconnect_delay : Z;
  max_reconnect_attempts : nat
}.

(** [IoTManager.__init__]. *)
Definition init : manager := {|
  sensor_data := ∅;
  callbacks := ∅;
  data_buffer :=
    <["temperature" := []]> (<["humidity" := []]> (<["air_quality" := []]>
      (<["noise" := []]> (<["traffic" := []]> ∅))));
  buffer_size := 1000;
  connected := false;
  reconnect_delay := 5;
  max_reconnect_attempts := 5
|}.

Definition set_sensor_data (st : manager) sd : manager :=
  {| sensor_data := sd; callbacks := callbacks st;
     data_buffer := data_buffer st; buffer_size := buffer_size st;
     connected := connected st; reconnect_delay := reconnect_delay st;
     max_reconnect_attempts := max_reconnect_attempts st |}.

Definition set_callbacks (st : manager) cbs : manager :=
  {| sensor_data := sensor_data st; callbacks := cbs;
     data_buffer := data_buffer st; buffer_size := buffer_size st;
     connected := connected st; reconnect_delay := reconnect_delay st;
     max_reconnect_attempts := max_reconnect_attempts st |}.

Definition set_data_buffer (st : manager) db : manager :=
  {| sensor_data := sensor_data st; callbacks := callbacks st;
     data_buffer := db; buffer_size := buffer_size st;
     connected := connected st; reconnect_delay := reconnect_delay st;
     max_reconnect_attempts := max_reconnect_attempts st |}.

Definition set_connected (st : manager) b : manager :=
  {| sensor_data := sensor_data st; callbacks := callbacks st;
     data_buffer := data_buffer st; buffer_size := buffer_size st;
     connected := b; reconnect_delay := reconnect_delay st;
     max_reconnect_attempts := max_reconnect_attempts st |}.

Definition set_reconnect_delay (st : manager) d : manager :=
  {| sensor_data := sensor_data st; callbacks := callbacks st;
     data_buffer := data_buffer st; buffer_size := buffer_size st;
     connected := connected st; reconnect_delay := d;
     max_reconnect_attempts := max_reconnect_attempts st |}.

(** *** The connection *)

(** What the MQTT client answers during one call of [connect],
    [_try_reconnect] or [disconnect]: [None] is a call that returns,
    [Some e] one that raises [e]. *)
Record client : Type := {
  is_connected : bool;
  connect_result : option exn;
  reconnect_result : nat -> option exn;   (* the k-th [reconnect()], from 0 *)
  disconnect_result : option exn          (* [loop_stop(); disconnect()] *)
}.

Inductive conn_event : Type :=
  | Reconnect (attempt : nat)   (* a call of [client.reconnect()] *)
  | Sleep (seconds : Z).        (* a call of [time.sleep] *)

(** The [while] loop of [_try_reconnect], [fuel] iterations at most;
    [None] when the fuel runs out before the loop ends.  A result
    [Ok tt] is the [return] after a successful reconnection. *)
Fixpoint reconnect_loop (fuel : nat) (c : client) (attempts : nat)
    (st : manager) : option (option unit * manager * list conn_event) :=
  match fuel with
  | O => None
  | S fuel' =>
      if negb (connected st) && (attempts <? max_reconnect_attempts st)%nat
      then
        match reconnect_result c attempts with
        | None =>
            Some (Some tt, set_connected st true, [Reconnect attempts])
        | Some _ =>
            let attempts' := S attempts in
            let st' := set_reconnect_delay st (reconnect_delay st * 2) in
            let slept :=
              if (attempts' <? max_reconnect_attempts st')%nat
              then [Sleep (reconnect_delay st')] else [] in
            '(r, st'', evs) ← reconnect_loop fuel' c attempts' st';
            Some (r, st'', Reconnect attempts :: slept ++ evs)
        end
      else Some (None, st, [])
  end.

(** [IoTManager._try_reconnect]. *)
Definition _try_reconnect (c : client) (st : manager)
  : option (result unit * manager * list conn_event) :=
  '(r, st', evs) ← reconnect_loop (S (max_reconnect_attempts st)) c 0%nat st;
  match r with
  | Some tt => Some (Ok tt, st', evs)
  | None =>
      if negb (connected st') then Some (Raise ConnectionError, st', evs)
      else Some (Ok tt, st', evs)
  end.

(** [IoTManager.connect]. *)
Definition connect (c : client) (st : manager)
  : option (result unit * manager * list conn_event) :=
  if is_connected c then Some (Ok tt, st, [])
  else
    match connect_result c with
    | None => Some (Ok tt, set_connected st true, [])
    | Some _ => _try_reconnect c (set_connected st false)
    end.

(** [IoTManager.disconnect]: the [finally] clause runs on both paths. *)
Definition disconnect (c : client) (st : manager) : result unit * manager :=
  let st1 :=
    match disconnect_result c with
    | None => set_connected st false
    | Some _ => st
    end in
  let st2 := set_sensor_data st1 ∅ in
  (Ok tt, set_data_buffer st2 ((fun _ => []) <$> data_buffer st2)).

(** *** The router, the store and the dispatcher *)

(** An MQTT message: its topic, and what
    [json.loads(msg.payload.decode())] evaluates to, [None] when the
    decoding or the parsing raises. *)
Record message : Type := {
  topic : string;
  payload : option json
}.

Definition slash : Ascii.ascii := Ascii.ascii_of_nat 47.

(** [s.split('/')]. *)
Fixpoint split_slash (s : string) : list string :=
  match s with
  | EmptyString => [EmptyString]
  | String c rest =>
      if Ascii.eqb c slash then EmptyString :: split_slash rest
      else
        match split_slash rest with
        | [] => [String c EmptyString]
        | p :: ps => String c p :: ps
        end
  end.

(** [parts[-k]] for [k = 1, 2, ...]. *)
Definition from_end (k : nat) (parts : list string) : result string :=
  if (length parts <? k)%nat then Raise IndexError
  else
    match parts !! (length parts - k)%nat with
    | Some p => Ok p
    | None => Raise IndexError
    end.

(** The table [ranges] local to [IoTManager.validate_sensor_data]. *)
Definition ranges : list (string * (Z * Z)) := [
  ("temperature", (-50, 100));
  ("humidity", (0, 100));
  ("air_quality", (0, 500));
  ("noise", (0, 200));
  ("traffic", (0, 100))
].

Definition is_dict (x : json) : bool :=
  match x with JDict _ => true | _ => false end.

(** What one call of a callback leaves in the trace of [on_message]: the
    call itself and, when it raises, the error line logged for it. *)
Inductive event : Type :=
  | Invoked (id : nat) (arg : json)
  | CallbackErrorLogged (sensor_type : string) (e : exn).

(** [data[-n:]] for [n > 0], and the list a buffer is cut back to. *)
Definition last_n {A} (n : nat) (l : list A) : list A :=
  drop (length l - n) l.

Section WithRuntime.
Variable float_of_string : string -> option pyfloat.
Variable strptime_ok : string -> bool.

(** The body of the [try] of [IoTManager.validate_sensor_data].  The
    required fields are a set; the result does not depend on the order in
    which [all] visits them, since [in] raises either on every field or
    on none. *)
Definition validate_body (data : json) (sensor_type : string) : result bool :=
  present ← all_in ["value"; "unit"; "location"; "timestamp"] data;
  if negb present then Ok false
  else
    location ← py_getitem data "location";
    located ← (if is_dict location then all_in ["zone"; "coordinates"] location
               else Ok false);
    if negb located then Ok false
    else
      coords ← py_getitem location "coordinates";
      placed ← (if is_dict coords then all_in ["lat"; "lon"] coords
                else Ok false);
      if negb placed then Ok false
      else
        match assoc sensor_type ranges with
        | Some (min_val, max_val) =>
            raw ← py_getitem data "value";
            value ← py_float float_of_string raw;
            if negb (between (of_int min_val) value (of_int max_val))
            then Ok false
            else Ok true
        | None => Ok true
        end.

(** [IoTManager.validate_sensor_data]: any exception gives [False]. *)
Definition validate_sensor_data (data : json) (sensor_type : string) : bool :=
  match validate_body data sensor_type with
  | Ok b => b
  | Raise _ => false
  end.

(** [data_buffer[sensor_type].append(x)], then [pop(0)] when the list has
    grown beyond [buffer_size]. *)
Definition push (size : nat) (buf : list json) (x : json) : list json :=
  let buf' := buf ++ [x] in
  if (size <? length buf')%nat then tail buf' else buf'.

(** The loop over [self.callbacks[sensor_type]], each call in its own
    [try]. *)
Fixpoint run_callbacks (sensor_type : string) (cbs : list callback)
    (arg : json) : list event :=
  match cbs with
  | [] => []
  | cb :: rest =>
      Invoked (cb_id cb) arg ::
      match cb_run cb arg with
      | None => run_callbacks sensor_type rest arg
      | Some e =>
          CallbackErrorLogged sensor_type e ::
          run_callbacks sensor_type rest arg
      end
  end.

(** The body of the [try] of [on_message]; [now] is the clock read by
    [process_sensor_data]. *)
Definition on_message_body (st : manager) (now : string) (msg : message)
  : result (manager * list event) :=
  payload ← match payload msg with
            | Some j => Ok j
            | None => Raise JSONDecodeError
            end;
  let topic_parts := split_slash (topic msg) in
  sensor_type ← from_end 1 topic_parts;
  sensor_id ← from_end 2 topic_parts;
  if negb (validate_sensor_data payload sensor_type) then Ok (st, [])
  else
    match Processor.validate_sensor_data float_of_string strptime_ok payload
    with
    | Reject _ => Ok (st, [])
    | Accept =>
        let processed_data :=
          process_sensor_data float_of_string now payload in
        let st1 :=
          match data_buffer st !! sensor_type with
          | Some buf =>
              set_data_buffer st
                (<[sensor_type := push (buffer_size st) buf processed_data]>
                   (data_buffer st))
          | None => st
          end in
        let of_type := default ∅ (sensor_data st1 !! sensor_type) in
        let st2 :=
          set_sensor_data st1
            (<[sensor_type := <[sensor_id := processed_data]> of_type]>
               (sensor_data st1)) in
        let evs :=
          match callbacks st2 !! sensor_type with
          | Some cbs => run_callbacks sensor_type cbs processed_data
          | None => []
          end in
        Ok (st2, evs)
    end.

(** [IoTManager.on_message]: both [except] clauses log and return. *)
Definition on_message (st : manager) (now : string) (msg : message)
  : result unit * manager * list event :=
  match on_message_body st now msg with
  | Ok (st', evs) => (Ok tt, st', evs)
  | Raise JSONDecodeError => (Ok tt, st, [])
  | Raise _ => (Ok tt, st, [])
  end.

End WithRuntime.

(** The two shapes [get_latest_data] returns. *)
Inductive latest : Type :=
  | OfType (readings : gmap string json)
  | AllTypes (by_type : gmap string (gmap string json)).


(** [x in m] for a dict of the manager keyed by sensor type. *)
Definition key_in {A} (x : json) (m : gmap string A) : result bool :=
  match x with
  | JStr s => Ok (bool_decide (is_Some (m !! s)))
  | JList _ | JDict _ => Raise TypeError
  | _ => Ok false
  end.

(** [IoTManager.get_latest_data]; the argument is any object. *)
Definition get_latest_data_body (st : manager) (sensor_type : json)
  : result latest :=
  invalid ← (if truthy sensor_type
             then b ← key_in sensor_type (data_buffer st); Ok (negb b)
             else Ok false);
  if invalid : bool then Ok (OfType ∅)
  else if truthy sensor_type then
    match sensor_type with
    | JStr s => Ok (OfType (default ∅ (sensor_data st !! s)))
    | JList _ | JDict _ => Raise TypeError
    | _ => Ok (OfType ∅)
    end
  else Ok (AllTypes (sensor_data st)).

Definition get_latest_data (st : manager) (sensor_type : json)
  : result latest :=
  match get_latest_data_body st sensor_type with
  | Ok r => Ok r
  | Raise _ => Ok (OfType ∅)
  end.

(** [limit and isinstance(limit, int) and limit > 0], giving the count. *)
Definition positive_limit (limit : json) : option nat :=
  match limit with
  | JInt n => if 0 <? n then Some (Z.to_nat n) else None
  | JBool true => Some 1%nat
  | _ => None
  end.

(** [IoTManager.get_buffer_data]. *)
Definition get_buffer_data_body (st : manager) (sensor_type limit : json)
  : result (list json) :=
  known ← key_in sensor_type (data_buffer st);
  if negb known then Ok []
  else
    match sensor_type with
    | JStr s =>
        match data_buffer st !! s with
        | Some data =>
            match positive_limit limit with
            | Some n => Ok (last_n n data)
            | None => Ok data
            end
        | None => Raise KeyError
        end
    | _ => Raise KeyError
    end.

Definition get_buffer_data (st : manager) (sensor_type limit : json)
  : result (list json) :=
  match get_buffer_data_body st sensor_type limit with
  | Ok r => Ok r
  | Raise _ => Ok []
  end.

(** [IoTManager.register_callback]; [None] stands for an object that is
    not callable. *)
Definition register_callback (st : manager) (sensor_type : string)
    (cb : option callback) : result manager :=
  match cb with
  | None => Raise ValueError
  | Some f =>
      let registered := default [] (callbacks st !! sensor_type) in
      Ok (set_callbacks st
            (<[sensor_type := registered ++ [f]]> (callbacks st)))
  end.

End Manager.

Import Config Processor Manager.

(** ** The remaining functions of sensor_processor.py *)

Module Accessors.

(** The [coordinates] of the entries of [ZONES], the doubles of the
    source by their exact values. *)
Definition ZONE_COORDINATES : list (string * (pyfloat * pyfloat)) := [
  ("Centro", (Fin (-5841173220299161 # 1125899906842624),
              Fin (-5255705409478485 # 140737488355328)));
  ("Zona Norte", (Fin (-1459057066977077 # 281474976710656),
                  Fin (-5255300648461975 # 140737488355328)));
  ("Zona Sul", (Fin (-2924121372907113 # 562949953421312),
                Fin (-2627973457504251 # 70368744177664)));
  ("Zona Leste", (Fin (-2921782315850647 # 562949953421312),
                  Fin (-5254754305532179 # 140737488355328)));
  ("Zona Oeste", (Fin (-2919920640354683 # 562949953421312),
                  Fin (-2628331423305883 # 70368744177664)))
].

(** The body of the [try] of [get_zone_summary]; [now] is the clock. *)
Definition get_zone_summary_body (now : string) (zone : json) : result json :=
  types ← lookup_obj zone ZONES;
  match types with
  | None => Raise ValueError
  | Some sensor_types =>
      coords ← lookup_obj zone ZONE_COORDINATES;
      match coords with
      | None => Raise KeyError
      | Some (lat, lon) =>
          Ok (JDict [("zone", zone);
                     ("coordinates",
                      JDict [("lat", JFloat lat); ("lon", JFloat lon)]);
                     ("available_sensors", JList (map JStr sensor_types));
                     ("summary_timestamp", JStr now)])
      end
  end.

(** [SensorDataProcessor.get_zone_summary]. *)
Definition get_zone_summary (now : string) (zone : json) : json :=
  match get_zone_summary_body now zone with
  | Ok summary => summary
  | Raise _ => JDict []
  end.

(** The body of the [try] of [get_sensor_thresholds]. *)
Definition get_sensor_thresholds_body (sensor_type : json)
  : result (list (string * (Z * Z))) :=
  entry ← lookup_obj sensor_type SENSOR_TYPES;
  match entry with
  | None => Raise ValueError
  | Some def => Ok (thresholds def)
  end.

(** [SensorDataProcessor.get_sensor_thresholds]. *)
Definition get_sensor_thresholds (sensor_type : json)
  : list (string * (Z * Z)) :=
  match get_sensor_thresholds_body sensor_type with
  | Ok bands => bands
  | Raise _ => []
  end.

(** [sensor_data.keys()]. *)
Definition py_keys (x : json) : result (list string) :=
  match x with
  | JDict d => Ok (map fst d)
  | _ => Raise AttributeError
  end.

(** The body of the [try] of [validate_zone_sensors]:
    [set(expected).issubset(set(actual))]. *)
Definition validate_zone_sensors_body (zone sensor_data : json)
  : result bool :=
  types ← lookup_obj zone ZONES;
  match types with
  | None => Ok false
  | Some expected_sensors =>
      actual_sensors ← py_keys sensor_data;
      Ok (forallb (fun t => existsb (String.eqb t) actual_sensors)
                  expected_sensors)
  end.

(** [SensorDataProcessor.validate_zone_sensors]. *)
Definition validate_zone_sensors (zone sensor_data : json) : bool :=
  match validate_zone_sensors_body zone sensor_data with
  | Ok b => b
  | Raise _ => false
  end.

End Accessors.

(** ** The broker handlers of iot_manager.py *)

Module Handlers.

(** What one call of [client.subscribe(topic, qos)] does: return a result
    code (0 is [MQTT_ERR_SUCCESS]) or raise. *)
Inductive subscribe_outcome : Type :=
  | Returned (code : Z)
  | Raised (e : exn).

(** The calls of [subscribe] and the line logged after each. *)
Inductive sub_event : Type :=
  | Subscribe (topic : string) (qos : Z)
  | SubscribedLogged (topic : string)
  | SubscribeErrorLogged (topic : string).

(** The list [topics] of [_subscribe_to_topics]. *)
Definition topics : list (string * Z) := [
  ("mossoro/sensors/+/temperature", 0);
  ("mossoro/sensors/+/humidity", 0);
  ("mossoro/sensors/+/air_quality", 0);
  ("mossoro/sensors/+/noise", 0);
  ("mossoro/sensors/+/traffic", 0)
].

(** The loop of [_subscribe_to_topics], each call in its own [try]. *)
Fixpoint subscribe_all (subscribe : string -> Z -> subscribe_outcome)
    (ts : list (string * Z)) : list sub_event :=
  match ts with
  | [] => []
  | (topic, qos) :: rest =>
      Subscribe topic qos ::
      match subscribe topic qos with
      | Returned code =>
          (if code =? 0 then SubscribedLogged topic
           else SubscribeErrorLogged topic) :: subscribe_all subscribe rest
      | Raised _ => SubscribeErrorLogged topic :: subscribe_all subscribe rest
      end
  end.

(** [IoTManager._subscribe_to_topics]. *)
Definition _subscribe_to_topics (subscribe : string -> Z -> subscribe_outcome)
  : list sub_event :=
  subscribe_all subscribe topics.

(** [IoTManager.on_connect]. *)
Definition on_connect (subscribe : string -> Z -> subscribe_outcome)
    (st : manager) (rc : Z) : manager * list sub_event :=
  if rc =? 0 then (set_connected st true, _subscribe_to_topics subscribe)
  else (set_connected st false, []).

(** [IoTManager.on_disconnect]: a ConnectionError of [_try_reconnect]
    leaves the handler. *)
Definition on_disconnect (c : client) (st : manager) (rc : Z)
  : option (result unit * manager * list conn_event) :=
  let st1 := set_connected st false in
  if negb (rc =? 0) then _try_reconnect c st1
  else Some (Ok tt, st1, []).

(** [IoTManager.is_connected]. *)
Definition is_connected (c : client) (st : manager) : bool :=
  connected st && Manager.is_connected c.

End Handlers.

(** ** The publisher of test_iot_sensors.py *)

Module Simulator.

(** The units of [IoTSensorSimulator.sensors]. *)
Definition sensor_units : list (string * string) := [
  ("temperature", "Â°C");
  ("humidity", "%");
  ("air_quality", "AQI");
  ("noise", "dB");
  ("traffic", "%")
].

(** The dict returned by [generate_sensor_data]: [value], [lat], [lon]
    and [battery] stand for the numbers it draws and rounds; a sensor
    type that is not in [sensors] raises KeyError. *)
Definition generate_sensor_data (sensor_type location : string)
    (value lat lon : pyfloat) (battery : Z) : result json :=
  match assoc sensor_type sensor_units with
  | None => Raise KeyError
  | Some unit_ =>
      Ok (JDict [("value", JFloat value);
                 ("unit", JStr unit_);
                 ("location",
                  JDict [("zone", JStr location);
                         ("coordinates",
                          JDict [("lat", JFloat lat); ("lon", JFloat lon)])]);
                 ("status", JStr "active");
                 ("battery", JInt battery)])
  end.

(** The topic of [publish_sensor_data]. *)
Definition publish_topic (sensor_id sensor_type : string) : string :=
  "mossoro/sensors/" +:+ sensor_id +:+ "/" +:+ sensor_type.

(** The message the manager receives for a published reading:
    [json.loads] gives back the dict that [json.dumps] was given. *)
Definition published (sensor_id sensor_type : string) (data : json)
  : message :=
  {| topic := publish_topic sensor_id sensor_type; payload := Some data |}.

End Simulator.

(** ** Notions used in the statements *)

Module Spec.
(** The closed interval of a band contains a value: the value is finite
    and lies between the two bounds. *)
Definition in_band (b : Z * Z) (v : pyfloat) : Prop :=
  exists q, v = Fin q /\ (inject_Z (fst b) <= q)%Q /\ (q <= inject_Z (snd b))%Q.

(** [name] is the first band, in the order of the catalogue, whose
    interval contains [v]. *)
Definition first_band (bands : list (string * (Z * Z))) (v : pyfloat)
    (name : string) : Prop :=
  exists i b,
    bands !! i = Some (name, b) /\ in_band b v /\
    forall j nb, (j < i)%nat -> bands !! j = Some nb -> ~ in_band (snd nb) v.

(** No band of the list contains [v]. *)
Definition no_band (bands : list (string * (Z * Z))) (v : pyfloat) : Prop :=
  forall nb, nb ∈ bands -> ~ in_band (snd nb) v.

(** Every band of a catalogue entry has a name. *)
Definition names_nonempty (def : sensor_type_def) : bool :=
  forallb (fun nb => negb (String.eqb (fst nb) EmptyString)) (thresholds def).

Section WithRuntime.
Variable float_of_string : string -> option pyfloat.
Variable strptime_ok : string -> bool.

(** The facts the validator has established when it accepts. *)
Record accepted (d : list (string * json)) (t : string) (def : sensor_type_def)
    (v : pyfloat) : Prop := {
  acc_fields : forallb (fun f => dict_has f d) required_fields = true;
  acc_type : dict_get "sensor_type" d = Some (JStr t);
  acc_def : assoc t SENSOR_TYPES = Some def;
  acc_value : exists raw, dict_get "value" d = Some raw /\
                          py_float float_of_string raw = Ok v;
  acc_range : in_valid_range def v = true;
  acc_time : exists ts, dict_get "timestamp" d = Some (JStr ts) /\
                        strptime_ok ts = true;
  acc_location : location_checks (JDict d) = Ok Accept
}.

End WithRuntime.
End Spec.

Module Pipeline.
Section WithRuntime.
Variable float_of_string : string -> option pyfloat.
Variable strptime_ok : string -> bool.

(** What [on_message] makes of a message: [Some (sensor_type, sensor_id,
    processed_data)] when both validators let it through, [None] when the
    message is dropped. *)
Definition routed (now : string) (msg : message)
  : option (string * string * json) :=
  match payload msg with
  | None => None
  | Some data =>
      let topic_parts := split_slash (topic msg) in
      match from_end 1 topic_parts, from_end 2 topic_parts with
      | Ok sensor_type, Ok sensor_id =>
          if Manager.validate_sensor_data float_of_string data sensor_type
          then
            match Processor.validate_sensor_data float_of_string strptime_ok
                    data with
            | Accept =>
                Some (sensor_type, sensor_id,
                      process_sensor_data float_of_string now data)
            | Reject _ => None
            end
          else None
      | _, _ => None
      end
  end.

(** The manager after a reading has been stored. *)
Definition stored (st : manager) (sensor_type sensor_id : string)
    (reading : json) : manager :=
  let st1 :=
    match data_buffer st !! sensor_type with
    | Some buf =>
        set_data_buffer st
          (<[sensor_type := push (buffer_size st) buf reading]>
             (data_buffer st))
    | None => st
    end in
  set_sensor_data st1
    (<[sensor_type :=
         <[sensor_id := reading]> (default ∅ (sensor_data st1 !! sensor_type))]>
       (sensor_data st1)).

(** The calls made for a stored reading. *)
Definition dispatched (st : manager) (sensor_type : string) (reading : json)
  : list event :=
  match callbacks st !! sensor_type with
  | Some cbs => run_callbacks sensor_type cbs reading
  | None => []
  end.

(** The manager after a sequence of messages, each with the clock value
    read while it is processed. *)
Definition deliver (st : manager) (input : string * message) : manager :=
  snd (fst (on_message float_of_string strptime_ok st (fst input) (snd input))).

Definition run (st : manager) (inputs : list (string * message)) : manager :=
  foldl deliver st inputs.

(** The readings that a sequence of messages inserts for one sensor
    type, in the order of the messages. *)
Definition insertions (sensor_type : string)
    (inputs : list (string * message)) : list json :=
  omap (fun input =>
          match routed (fst input) (snd input) with
          | Some (t, _, reading) =>
              if String.eqb t sensor_type then Some reading else None
          | None => None
          end) inputs.

End WithRuntime.

(** The callbacks called in a trace, in order, and the errors logged. *)
Definition invoked (evs : list event) : list (nat * json) :=
  omap (fun ev => match ev with
                  | Invoked id arg => Some (id, arg)
                  | CallbackErrorLogged _ _ => None
                  end) evs.

Definition logged (evs : list event) : list (string * exn) :=
  omap (fun ev => match ev with
                  | Invoked _ _ => None
                  | CallbackErrorLogged t e => Some (t, e)
                  end) evs.
End Pipeline.

Module Edit.
(** The reading [d] with its value replaced. *)
Definition with_value (value : json) (d : list (string * json))
  : list (string * json) :=
  dict_set "value" value d.

(** The reading [d] with the zone of its location replaced. *)
Definition with_zone (zone : string) (d : list (string * json))
  : list (string * json) :=
  match dict_get "location" d with
  | Some (JDict loc) =>
      dict_set "location" (JDict (dict_set "zone" (JStr zone) loc)) d
  | _ => d
  end.

(** Whether the [sensor_types] of a zone list a sensor type. *)
Definition zone_allows (zone sensor_type : string) : bool :=
  match assoc zone ZONES with
  | Some types => existsb (String.eqb sensor_type) types
  | None => false
  end.
End Edit.

Module Backoff.
(** The sleeps and the reconnection attempts of a trace, in order. *)
Definition sleeps (evs : list conn_event) : list Z :=
  omap (fun ev => match ev with Sleep s => Some s | Reconnect _ => None end) evs.

Definition tries (evs : list conn_event) : list nat :=
  omap (fun ev => match ev with Reconnect k => Some k | Sleep _ => None end) evs.

(** The trace of [k] failed attempts in a row, the first being attempt
    [a], when the delay is [d] before them and [k] attempts are left. *)
Fixpoint failures (d : Z) (a k : nat) : list conn_event :=
  match k with
  | O => []
  | S k' =>
      Reconnect a ::
      (match k' with O => [] | S _ => [Sleep (d * 2)] end) ++
      failures (d * 2) (S a) k'
  end.
End Backoff.

Module Shape.
(** A number lies within a pair of bounds. *)
Definition within (r : pyfloat * pyfloat) (x : json) : Prop :=
  is_number x = true /\
  exists q lo hi, number_value x = Fin q /\ r = (Fin lo, Fin hi) /\
                  (lo <= q)%Q /\ (q <= hi)%Q.

(** The location of a reading is a dict with a known zone and with
    coordinates inside the bounds. *)
Record located (d : list (string * json)) (loc coords : list (string * json))
    (lat lon : json) (zone : string) : Prop := {
  loc_dict : dict_get "location" d = Some (JDict loc);
  loc_coords : dict_get "coordinates" loc = Some (JDict coords);
  loc_lat : dict_get "lat" coords = Some lat;
  loc_lon : dict_get "lon" coords = Some lon;
  loc_lat_ok : within lat_range lat;
  loc_lon_ok : within lon_range lon;
  loc_zone : dict_get "zone" loc = Some (JStr zone);
  loc_known : is_Some (assoc zone ZONES)
}.

(** The reading [d] with one top-level field replaced. *)
Definition with_field (k : string) (x : json) (d : list (string * json))
  : list (string * json) :=
  dict_set k x d.

(** The reading [d] with the two coordinates of its location replaced. *)
Definition with_coordinates (lat lon : json) (d : list (string * json))
  : list (string * json) :=
  match dict_get "location" d with
  | Some (JDict loc) =>
      match dict_get "coordinates" loc with
      | Some (JDict coords) =>
          dict_set "location"
            (JDict (dict_set "coordinates"
                      (JDict (dict_set "lon" lon (dict_set "lat" lat coords)))
                      loc)) d
      | _ => d
      end
  | _ => d
  end.
End Shape.

Module Coverage.
(** The bands reach from just above [prev] up to [stop] leaving no hole
    wider than [step] between one band and the next: with [step = 1] no
    integer is left out, with [step = 0] no number at all. *)
Fixpoint gapless (step prev : Z) (bands : list (string * (Z * Z)))
    (stop : Z) : bool :=
  match bands with
  | [] => stop <=? prev
  | (_, (lo, hi)) :: rest =>
      (lo <=? prev + step) && gapless step (Z.max prev hi) rest stop
  end.

(** The bands of an entry cover its valid range in that sense. *)
Definition covers (step : Z) (def : sensor_type_def) : bool :=
  match thresholds def with
  | [] => false
  | (_, (lo, hi)) :: rest =>
      (lo <=? fst (valid_range def)) && (fst (valid_range def) <=? hi) &&
      gapless step hi rest (snd (valid_range def))
  end.

Definition no_unknown_name (def : sensor_type_def) : bool :=
  forallb (fun nb => negb (String.eqb (fst nb) "unknown")) (thresholds def).

(** The category is the name of a band that contains the value. *)
Definition categorized (bands : list (string * (Z * Z))) (v : pyfloat)
  : Prop :=
  exists b, (categorize bands v, b) ∈ bands /\ Spec.in_band b v.
End Coverage.

Module Topic.
(** A string without the character [/]. *)
Fixpoint no_slash (s : string) : bool :=
  match s with
  | EmptyString => true
  | String c rest => negb (Ascii.eqb c slash) && no_slash rest
  end.
End Topic.

Module Retry.
(** The store and the settings of two managers are the same: only the
    connection flag and the delay may differ. *)
Definition same_store (st st' : manager) : Prop :=
  sensor_data st' = sensor_data st /\
  data_buffer st' = data_buffer st /\
  callbacks st' = callbacks st /\
  buffer_size st' = buffer_size st /\
  max_reconnect_attempts st' = max_reconnect_attempts st.

(** The topics subscribed to in a trace, in order. *)
Definition subscriptions (evs : list Handlers.sub_event) : list (string * Z) :=
  omap (fun ev => match ev with
                  | Handlers.Subscribe topic qos => Some (topic, qos)
                  | _ => None
                  end) evs.
End Retry.

(** ** Samples *)

Module Sample.
(** Stand-ins for the two interpreter functions, used only to evaluate the
    samples below: the sample readings carry one timestamp, which
    [strptime] parses, and no value of theirs is a str. *)
Definition strptime_ok (s : string) : bool :=
  String.eqb s "2024-03-01T12:00:00.000000".

Definition float_of_string (s : string) : option pyfloat := None.

(** A reading with coordinates inside the bounds. *)
Definition location (zone : string) : json :=
  JDict [("zone", JStr zone);
         ("coordinates", JDict [("lat", JFloat (Fin (-83 # 16)));
                                ("lon", JFloat (Fin (-1195 # 32)))])].

Definition schema_payload (value : json) (unit_ zone : string)
  : list (string * json) :=
  [("value", value); ("unit", JStr unit_); ("location", location zone);
   ("timestamp", JStr "2024-03-01T12:00:00.000000");
   ("status", JStr "active"); ("battery", JInt 85)].

Definition reading (sensor_type : string) (value : json) (unit_ zone : string)
  : list (string * json) :=
  ("sensor_id", JStr "centro_1") :: ("sensor_type", JStr sensor_type) ::
  schema_payload value unit_ zone.

Definition message_of (sensor_type : string) (d : list (string * json))
  : message :=
  {| topic := "mossoro/sensors/centro_1/" +:+ sensor_type;
     payload := Some (JDict d) |}.

Definition failing : callback :=
  {| cb_id := 1; cb_run := fun _ => Some (OtherError 0) |}.
Definition quiet : callback :=
  {| cb_id := 2; cb_run := fun _ => None |}.

Definition with_callbacks : manager :=
  set_callbacks init (<["temperature" := [failing; quiet]]> ∅).

(** A broker that refuses every connection. *)
Definition unreachable : client :=
  {| is_connected := false;
     connect_result := Some ConnectionError;
     reconnect_result := fun _ => Some ConnectionError;
     disconnect_result := Some ConnectionError |}.
End Sample.

(** ** Facts about the embedding *)

Ltac run :=
  cbn [mbind mret result_bind result_ret bind from_option id
       py_get py_getitem py_get_or_empty py_in lookup_obj py_strptime].

Module DictFacts.

Lemma dict_get_set_eq k v d : dict_get k (dict_set k v d) = Some v.
Proof.
  induction d as [|[k' v'] d IH]; simpl.
  - by rewrite String.eqb_refl.
  - destruct (String.eqb k k') eqn:E; simpl.
    + by rewrite String.eqb_refl.
    + by rewrite E.
Qed.

Lemma dict_get_set_ne k k' v d :
  k <> k' -> dict_get k (dict_set k' v d) = dict_get k d.
Proof.
  intros Hne. induction d as [|[k0 v0] d IH]; simpl.
  - apply String.eqb_neq in Hne. by rewrite Hne.
  - destruct (String.eqb k' k0) eqn:E; simpl.
    + apply String.eqb_eq in E as <-.
      apply String.eqb_neq in Hne. by rewrite Hne.
    + by rewrite IH.
Qed.

Lemma dict_has_set k k' v d :
  dict_has k (dict_set k' v d) = String.eqb k k' || dict_has k d.
Proof.
  unfold dict_has. destruct (String.eqb k k') eqn:E.
  - apply String.eqb_eq in E as ->. by rewrite dict_get_set_eq.
  - apply String.eqb_neq in E. by rewrite dict_get_set_ne.
Qed.

Lemma dict_has_get k d : dict_has k d = true -> exists v, dict_get k d = Some v.
Proof. unfold dict_has. destruct (dict_get k d); eauto; discriminate. Qed.

End DictFacts.


Module ProcessorFacts.
Import DictFacts Spec.
Section WithRuntime.
Variable float_of_string : string -> option pyfloat.
Variable strptime_ok : string -> bool.
Abbreviation validate := (Processor.validate_sensor_data float_of_string strptime_ok).
Abbreviation vbody := (Processor.validate_body float_of_string strptime_ok).

Lemma first_missing_dict fields d :
  first_missing fields (JDict d) =
  Ok (List.find (fun f => negb (dict_has f d)) fields).
Proof.
  induction fields as [|f fields IH]; simpl; [done|]. run.
  destruct (dict_has f d); simpl; [apply IH | done].
Qed.

Lemma all_in_dict fields d :
  all_in fields (JDict d) = Ok (forallb (fun f => dict_has f d) fields).
Proof.
  induction fields as [|f fields IH]; simpl; [done|]. run.
  destruct (dict_has f d); simpl; [apply IH | done].
Qed.

Lemma lookup_obj_Some {A} x (l : list (string * A)) a :
  lookup_obj x l = Ok (Some a) -> exists s, x = JStr s /\ assoc s l = Some a.
Proof. destruct x; simpl; intros H; inversion H; eauto. Qed.


Lemma find_none_forallb fields d :
  List.find (fun f => negb (dict_has f d)) fields = None ->
  forallb (fun f => dict_has f d) fields = true.
Proof.
  induction fields as [|f fields IH]; simpl; [done|].
  destruct (dict_has f d); simpl; [done | discriminate].
Qed.

Lemma forallb_find_none fields d :
  forallb (fun f => dict_has f d) fields = true ->
  List.find (fun f => negb (dict_has f d)) fields = None.
Proof.
  induction fields as [|f fields IH]; simpl; [done|].
  destruct (dict_has f d); simpl; [done | discriminate].
Qed.

Lemma validate_accept_inv data :
  validate data = Accept ->
  exists d t def v, data = JDict d /\ accepted float_of_string strptime_ok d t def v.
Proof.
  unfold Processor.validate_sensor_data, Processor.validate_body.
  destruct data as [|b|n|x|s|l|d];
    try (destruct (first_missing _ _) as [[f|]|e]; run; discriminate).
  rewrite first_missing_dict.
  destruct (List.find (fun f => negb (dict_has f d)) required_fields)
    as [f|] eqn:Hfind; run; [discriminate|].
  destruct (dict_get "sensor_type" d) as [st|] eqn:Hst; simpl.
  2:{ discriminate. }
  destruct (lookup_obj st SENSOR_TYPES) as [[def|]|e] eqn:Hdef; simpl;
    [|discriminate..].
  apply lookup_obj_Some in Hdef as (t & -> & Hdef).
  unfold value_check. run.
  destruct (dict_get "value" d) as [raw|] eqn:Hraw; simpl; [|discriminate].
  destruct (py_float float_of_string raw) as [v|e] eqn:Hv; simpl;
    [|destruct e; discriminate].
  destruct (in_valid_range def v) eqn:Hrange; simpl; [|discriminate].
  destruct (dict_get "timestamp" d) as [ts|] eqn:Hts; simpl; [|discriminate].
  destruct ts as [|b|n|x|ts|l|d']; simpl; try discriminate.
  destruct (strptime_ok ts) eqn:Hok; simpl; [|discriminate].
  destruct (location_checks (JDict d)) as [[|r]|e] eqn:Hloc; simpl;
    try discriminate.
  intros _. exists d, t, def, v. split; [done|].
  constructor; eauto using find_none_forallb.
Qed.

Lemma accepted_validate d t def v :
  accepted float_of_string strptime_ok d t def v -> validate (JDict d) = Accept.
Proof.
  intros [Hf Ht Hd (raw & Hraw & Hv) Hr (ts & Hts & Hok) Hloc].
  unfold Processor.validate_sensor_data, Processor.validate_body.
  rewrite first_missing_dict, (forallb_find_none _ _ Hf). run.
  rewrite Ht. run. rewrite Hd.
  unfold value_check. run. rewrite Hraw. run. rewrite Hv. run.
  rewrite Hr. rewrite Hts. run. rewrite Hok. by rewrite Hloc.
Qed.

End WithRuntime.
End ProcessorFacts.

Module EnricherFacts.
Import DictFacts ProcessorFacts Spec.

Lemma fle_of_int_l lo q : fle (of_int lo) (Fin q) = true <-> (inject_Z lo <= q)%Q.
Proof. apply Qle_bool_iff. Qed.

Lemma fle_of_int_r hi q : fle (Fin q) (of_int hi) = true <-> (q <= inject_Z hi)%Q.
Proof. apply Qle_bool_iff. Qed.

Lemma between_in_band lo hi v :
  between (of_int lo) v (of_int hi) = true <-> in_band (lo, hi) v.
Proof.
  unfold between, in_band. rewrite andb_true_iff. split.
  - intros [H1 H2]. destruct v as [q| | |]; try discriminate.
    exists q. split; [done|]. split; by apply Qle_bool_iff.
  - intros (q & -> & H1 & H2). split; by apply Qle_bool_iff.
Qed.

Lemma between_not_in_band lo hi v :
  between (of_int lo) v (of_int hi) = false <-> ~ in_band (lo, hi) v.
Proof.
  rewrite <- between_in_band. by destruct (between _ _ _).
Qed.

Lemma categorize_spec bands v :
  first_band bands v (categorize bands v) \/
  (no_band bands v /\ categorize bands v = "unknown").
Proof.
  induction bands as [|[cat [lo hi]] bands IH]; simpl.
  - right. split; [|done]. intros nb H. by apply elem_of_nil in H.
  - destruct (between (of_int lo) v (of_int hi)) eqn:Hb.
    + left. exists 0%nat, (lo, hi). split; [done|].
      split; [by apply between_in_band|]. intros j nb Hj. lia.
    + apply between_not_in_band in Hb.
      destruct IH as [(i & b & Hi & Hin & Hmin)|[Hno Hun]].
      * left. exists (S i), b. split; [done|]. split; [done|].
        intros [|j] nb Hj Hnb; simpl in Hnb.
        -- by inversion Hnb.
        -- apply (Hmin j); [lia|done].
      * right. split; [|done]. intros nb Hnb.
        apply elem_of_cons in Hnb as [->|Hnb]; [done|by apply Hno].
Qed.

Lemma categorize_name bands v :
  categorize bands v = "unknown" \/
  exists b, (categorize bands v, b) ∈ bands.
Proof.
  induction bands as [|[cat [lo hi]] bands IH]; simpl; [by left|].
  destruct (between _ _ _).
  - right. exists (lo, hi). apply elem_of_cons. by left.
  - destruct IH as [?|[b Hb]]; [by left|].
    right. exists b. apply elem_of_cons. by right.
Qed.


Lemma assoc_forallb {A} (P : A -> bool) k (l : list (string * A)) a :
  forallb (fun kv => P (snd kv)) l = true -> assoc k l = Some a -> P a = true.
Proof.
  induction l as [|[k' a'] l IH]; simpl; [discriminate|].
  intros [H1 H2]%andb_true_iff. destruct (String.eqb k k'); [|by apply IH].
  by intros [= <-].
Qed.

Lemma catalog_names_nonempty t def :
  assoc t SENSOR_TYPES = Some def -> names_nonempty def = true.
Proof. apply (assoc_forallb names_nonempty). by vm_compute. Qed.

Lemma categorize_nonempty t def v :
  assoc t SENSOR_TYPES = Some def -> categorize (thresholds def) v <> EmptyString.
Proof.
  intros Hdef%catalog_names_nonempty.
  destruct (categorize_name (thresholds def) v) as [->|[b Hb]]; [done|].
  unfold names_nonempty in Hdef. rewrite forallb_forall in Hdef.
  apply list_elem_of_In, Hdef in Hb. simpl in Hb.
  intros E. rewrite E in Hb. discriminate.
Qed.

Section WithRuntime.
Variable float_of_string : string -> option pyfloat.
Variable strptime_ok : string -> bool.

Lemma process_accepted now d t def v :
  accepted float_of_string strptime_ok d t def v ->
  process_sensor_data float_of_string now (JDict d) =
  JDict (enrich d now (categorize (thresholds def) v) "stable" (units def)).
Proof.
  intros [Hf Ht Hd (raw & Hraw & Hv) Hr _ _].
  unfold process_sensor_data, process_body. run.
  rewrite Ht. run. rewrite Hraw. run. rewrite Hv. run. by rewrite Hd.
Qed.

Lemma enrich_unit d now c tr u : dict_get "unit" (enrich d now c tr u) = Some (JStr u).
Proof. unfold enrich. apply dict_get_set_eq. Qed.

Lemma enrich_trend d now c tr u : dict_get "trend" (enrich d now c tr u) = Some (JStr tr).
Proof.
  unfold enrich. rewrite dict_get_set_ne by done. apply dict_get_set_eq.
Qed.

Lemma enrich_category d now c tr u :
  dict_get "status_category" (enrich d now c tr u) = Some (JStr c).
Proof.
  unfold enrich. rewrite !dict_get_set_ne by done. apply dict_get_set_eq.
Qed.

Lemma enrich_timestamp d now c tr u :
  dict_get "processed_timestamp" (enrich d now c tr u) = Some (JStr now).
Proof.
  unfold enrich. rewrite !dict_get_set_ne by done. apply dict_get_set_eq.
Qed.

Lemma enrich_other k d now c tr u :
  k <> "unit" -> k <> "trend" -> k <> "status_category" ->
  k <> "processed_timestamp" ->
  dict_get k (enrich d now c tr u) = dict_get k d.
Proof. intros. unfold enrich. by rewrite !dict_get_set_ne. Qed.

End WithRuntime.
End EnricherFacts.

Module RouterFacts.
Import ProcessorFacts Pipeline.
Section WithRuntime.
Variable float_of_string : string -> option pyfloat.
Variable strptime_ok : string -> bool.
Abbreviation on_message' := (Manager.on_message float_of_string strptime_ok).
Abbreviation routed' := (routed float_of_string strptime_ok).

Lemma on_message_routed st now msg :
  on_message' st now msg =
  match routed' now msg with
  | Some (t, id, p) => (Ok tt, stored st t id p, dispatched st t p)
  | None => (Ok tt, st, [])
  end.
Proof.
  unfold on_message, on_message_body, routed.
  destruct (payload msg) as [data|]; [|done]. run.
  destruct (from_end 1 _) as [t|e]; run; [|by destruct e].
  destruct (from_end 2 _) as [id|e]; run; [|by destruct e].
  destruct (Manager.validate_sensor_data _ data t); simpl; [|done].
  destruct (Processor.validate_sensor_data _ _ data); [|done].
  unfold stored, dispatched. simpl.
  by destruct (data_buffer st !! t).
Qed.

Lemma routed_accept now msg t id p :
  routed' now msg = Some (t, id, p) ->
  exists data, payload msg = Some data /\
    Processor.validate_sensor_data float_of_string strptime_ok data = Accept /\
    p = process_sensor_data float_of_string now data.
Proof.
  unfold routed. destruct (payload msg) as [data|]; [|done].
  destruct (from_end 1 _); [|done]. destruct (from_end 2 _); [|done].
  destruct (Manager.validate_sensor_data _ _ _); [|done].
  destruct (Processor.validate_sensor_data _ _ data) eqn:E; [|done].
  intros [= <- <- <-]. eauto.
Qed.

Lemma on_message_dropped st now msg :
  (forall data, payload msg = Some data ->
     Processor.validate_sensor_data float_of_string strptime_ok data <> Accept) ->
  on_message' st now msg = (Ok tt, st, []).
Proof.
  intros H. rewrite on_message_routed.
  destruct (routed' now msg) as [[[t id] p]|] eqn:E; [|done].
  apply routed_accept in E as (data & Hp & Hacc & _).
  by destruct (H data Hp).
Qed.

Lemma on_message_returns st now msg :
  fst (fst (on_message' st now msg)) = Ok tt.
Proof.
  rewrite on_message_routed.
  by destruct (routed' now msg) as [[[t id] p]|].
Qed.

End WithRuntime.

Lemma invoked_run_callbacks t cbs p :
  invoked (run_callbacks t cbs p) = map (fun cb => (cb_id cb, p)) cbs.
Proof.
  induction cbs as [|cb cbs IH]; simpl; [done|].
  destruct (cb_run cb p); simpl; by rewrite IH.
Qed.

Lemma logged_run_callbacks t cbs p :
  logged (run_callbacks t cbs p) =
  omap (fun cb => match cb_run cb p with
                  | Some e => Some (t, e)
                  | None => None
                  end) cbs.
Proof.
  induction cbs as [|cb cbs IH]; simpl; [done|].
  destruct (cb_run cb p); simpl; by rewrite IH.
Qed.

(** *** The ring buffer *)

Lemma tail_drop {A} (l : list A) : tail l = drop 1 l.
Proof. by destruct l. Qed.

Lemma push_last_n size l x :
  push size (last_n size l) x = last_n size (l ++ [x]).
Proof.
  unfold push, last_n. rewrite !length_app, length_drop. simpl.
  destruct (Nat.ltb_spec size (length l - (length l - size) + 1)) as [H|H].
  - destruct (decide (size = 0)%nat) as [->|Hpos].
    + rewrite Nat.sub_0_r, drop_all. simpl.
      symmetry. apply drop_ge. rewrite length_app. simpl. lia.
    + rewrite tail_drop, drop_app_le by (rewrite length_drop; lia).
      rewrite drop_drop, drop_app_le by lia.
      f_equal. f_equal. lia.
  - rewrite drop_app_le by lia. f_equal. f_equal. lia.
Qed.

Lemma length_last_n {A} n (l : list A) :
  length (last_n n l) = (length l `min` n)%nat.
Proof. unfold last_n. rewrite length_drop. lia. Qed.

End RouterFacts.

Module EditFacts.
Import DictFacts ProcessorFacts Spec Edit.
Section WithRuntime.
Variable float_of_string : string -> option pyfloat.
Variable strptime_ok : string -> bool.
Abbreviation accepted' := (accepted float_of_string strptime_ok).

Lemma forallb_has_set fields k x d :
  forallb (fun f => dict_has f d) fields = true ->
  forallb (fun f => dict_has f (dict_set k x d)) fields = true.
Proof.
  rewrite !forallb_forall. intros H f Hf.
  rewrite dict_has_set, (H f Hf). apply orb_true_r.
Qed.

Lemma location_checks_set k x d :
  k <> "location" ->
  location_checks (JDict (dict_set k x d)) = location_checks (JDict d).
Proof.
  intros Hk. unfold location_checks. run. by rewrite dict_get_set_ne.
Qed.

Lemma accepted_with_value d t def v v' :
  accepted' d t def v -> in_valid_range def v' = true ->
  accepted' (with_value (JFloat v') d) t def v'.
Proof.
  intros [Hf Ht Hd _ _ (ts & Hts & Hok) Hloc] Hr. unfold with_value.
  constructor.
  - by apply forallb_has_set.
  - by rewrite dict_get_set_ne.
  - done.
  - exists (JFloat v'). split; [apply dict_get_set_eq|done].
  - done.
  - exists ts. split; [by rewrite dict_get_set_ne|done].
  - by rewrite location_checks_set.
Qed.

Lemma location_checks_with_zone d z :
  location_checks (JDict d) = Ok Accept ->
  location_checks (JDict (with_zone z d)) =
  Ok (match assoc z ZONES with
      | Some _ => Accept
      | None => Reject (InvalidZone (JStr z))
      end).
Proof.
  remember (match assoc z ZONES with
            | Some _ => Accept
            | None => Reject (InvalidZone (JStr z))
            end) as out eqn:Hout.
  unfold with_zone, location_checks. run.
  destruct (dict_get "location" d) as [loc|] eqn:Hloc; run.
  2:{ rewrite ?Hloc; run; rewrite ?all_in_dict; simpl; discriminate. }
  destruct loc as [|b|n|x|s|l|loc].
  1-6: destruct (all_in location_fields _) as [[|]|e]; run; discriminate.
  rewrite dict_get_set_eq.
  run. rewrite !all_in_dict.
  unfold location_fields. simpl forallb.
  rewrite !dict_has_set. simpl.
  destruct (dict_has "zone" loc) eqn:Hz; simpl; [|discriminate].
  destruct (dict_has "coordinates" loc) eqn:Hc; simpl; [|discriminate].
  run. rewrite (dict_get_set_ne "coordinates" "zone") by done.
  destruct (default (JDict []) (dict_get "coordinates" loc))
    as [|b|n|x|s|l|coords]; run; try discriminate.
  destruct (negb (is_number _) || negb (is_number _)); [discriminate|].
  destruct (negb (in_bounds _ _)); [discriminate|].
  rewrite dict_get_set_eq. run. intros _. subst out.
  by destruct (assoc z ZONES).
Qed.

Lemma with_zone_get k z d :
  k <> "location" -> dict_get k (with_zone z d) = dict_get k d.
Proof.
  intros Hk. unfold with_zone.
  destruct (dict_get "location" d) as [[| | | | | |loc]|]; try done.
  by rewrite dict_get_set_ne.
Qed.

Lemma with_zone_has z d fields :
  forallb (fun f => dict_has f d) fields = true ->
  forallb (fun f => dict_has f (with_zone z d)) fields = true.
Proof.
  unfold with_zone.
  destruct (dict_get "location" d) as [[| | | | | |loc]|]; try done.
  apply forallb_has_set.
Qed.

Lemma validate_with_zone d z :
  Processor.validate_sensor_data float_of_string strptime_ok (JDict d) = Accept ->
  Processor.validate_sensor_data float_of_string strptime_ok
    (JDict (with_zone z d)) =
  match assoc z ZONES with
  | Some _ => Accept
  | None => Reject (InvalidZone (JStr z))
  end.
Proof.
  intros (d' & t & def & v & [= <-] & Ha)%validate_accept_inv.
  destruct Ha as [Hf Ht Hd (raw & Hraw & Hv) Hr (ts & Hts & Hok) Hloc].
  unfold Processor.validate_sensor_data, Processor.validate_body, value_check.
  rewrite first_missing_dict, (forallb_find_none _ _ (with_zone_has z _ _ Hf)).
  run. rewrite (with_zone_get "sensor_type"), Ht by done. run. rewrite Hd.
  run. rewrite (with_zone_get "value"), Hraw by done. run. rewrite Hv. run.
  rewrite Hr, (with_zone_get "timestamp"), Hts by done. run. rewrite Hok.
  by rewrite (location_checks_with_zone _ _ Hloc).
Qed.

End WithRuntime.
End EditFacts.

Module ConnectionFacts.
Import Backoff.

Lemma reconnect_loop_fails c k :
  forall fuel attempts st,
    connected st = false ->
    (forall i, reconnect_result c i <> None) ->
    max_reconnect_attempts st = (attempts + k)%nat ->
    (k < fuel)%nat ->
    exists st',
      reconnect_loop fuel c attempts st =
        Some (None, st', failures (reconnect_delay st) attempts k) /\
      connected st' = false /\
      reconnect_delay st' = reconnect_delay st * 2 ^ Z.of_nat k /\
      max_reconnect_attempts st' = max_reconnect_attempts st.
Proof.
  induction k as [|k IH]; intros fuel attempts st Hc Hfail Hmax Hfuel.
  - destruct fuel as [|fuel]; [lia|]. simpl. rewrite Hc. simpl.
    replace (attempts <? max_reconnect_attempts st)%nat with false
      by (symmetry; apply Nat.ltb_ge; lia).
    exists st. repeat split; try done. simpl. lia.
  - destruct fuel as [|fuel]; [lia|]. simpl. rewrite Hc. simpl.
    replace (attempts <? max_reconnect_attempts st)%nat with true
      by (symmetry; apply Nat.ltb_lt; lia).
    destruct (reconnect_result c attempts) as [e|] eqn:He;
      [|by destruct (Hfail attempts)].
    destruct (IH fuel (S attempts)
                (set_reconnect_delay st (reconnect_delay st * 2)))
      as (st' & Hrun & Hc' & Hd' & Hm'); try done; [simpl; lia|lia|].
    rewrite Hrun. simpl. exists st'. split.
    + do 3 f_equal. destruct k as [|k].
      * replace (S attempts <? max_reconnect_attempts st)%nat with false
          by (symmetry; apply Nat.ltb_ge; lia). done.
      * replace (S attempts <? max_reconnect_attempts st)%nat with true
          by (symmetry; apply Nat.ltb_lt; lia). done.
    + split; [done|]. split; [|done]. rewrite Hd'. simpl reconnect_delay.
      rewrite Nat2Z.inj_succ, Z.pow_succ_r by lia. lia.
Qed.

Lemma reconnect_loop_total c :
  forall fuel attempts st,
    (max_reconnect_attempts st - attempts < fuel)%nat ->
    is_Some (reconnect_loop fuel c attempts st).
Proof.
  induction fuel as [|fuel IH]; intros attempts st Hfuel; [lia|]. simpl.
  destruct (negb (connected st) &&
            (attempts <? max_reconnect_attempts st)%nat) eqn:Hguard;
    [|by eexists].
  apply andb_true_iff in Hguard as [_ Hlt%Nat.ltb_lt].
  destruct (reconnect_result c attempts); [|by eexists].
  destruct (IH (S attempts)
              (set_reconnect_delay st (reconnect_delay st * 2)))
    as [[[r st'] evs] Hrun]; [simpl; lia|].
  rewrite Hrun. by eexists.
Qed.

Lemma connect_total c st : is_Some (connect c st).
Proof.
  unfold connect. destruct (is_connected c); [by eexists|].
  destruct (connect_result c); [|by eexists].
  unfold _try_reconnect.
  destruct (reconnect_loop_total c
              (S (max_reconnect_attempts (set_connected st false))) 0%nat
              (set_connected st false)) as [[[r st'] evs] Hrun]; [lia|].
  rewrite Hrun. simpl. destruct r as [[]|]; [by eexists|].
  destruct (negb (connected st')); by eexists.
Qed.

End ConnectionFacts.

Module StoreFacts.
Import RouterFacts Pipeline.
Section WithRuntime.
Variable float_of_string : string -> option pyfloat.
Variable strptime_ok : string -> bool.
Abbreviation deliver' := (deliver float_of_string strptime_ok).
Abbreviation run' := (run float_of_string strptime_ok).
Abbreviation insertions' := (insertions float_of_string strptime_ok).
Abbreviation routed' := (routed float_of_string strptime_ok).

Lemma stored_buffer st t' id p t buf :
  data_buffer st !! t = Some buf ->
  data_buffer (stored st t' id p) !! t =
    Some (if String.eqb t' t then push (buffer_size st) buf p else buf) /\
  buffer_size (stored st t' id p) = buffer_size st.
Proof.
  intros Hbuf. unfold stored.
  destruct (String.eqb_spec t' t) as [->|Hne].
  - rewrite Hbuf. simpl. by rewrite lookup_insert_eq.
  - destruct (data_buffer st !! t') as [buf'|]; simpl; [|done].
    by rewrite lookup_insert_ne.
Qed.

Lemma deliver_buffer st input t buf :
  data_buffer st !! t = Some buf ->
  data_buffer (deliver' st input) !! t =
    Some (match routed' (fst input) (snd input) with
          | Some (t', _, p) =>
              if String.eqb t' t then push (buffer_size st) buf p else buf
          | None => buf
          end) /\
  buffer_size (deliver' st input) = buffer_size st.
Proof.
  intros Hbuf. unfold deliver. rewrite on_message_routed.
  destruct (routed' (fst input) (snd input)) as [[[t' id] p]|]; simpl;
    [|done].
  by apply (stored_buffer st t' id p).
Qed.

Lemma run_buffer inputs :
  forall st t hist,
    data_buffer st !! t = Some (last_n (buffer_size st) hist) ->
    data_buffer (run' st inputs) !! t =
      Some (last_n (buffer_size st) (hist ++ insertions' t inputs)) /\
    buffer_size (run' st inputs) = buffer_size st.
Proof.
  induction inputs as [|input inputs IH]; intros st t hist Hbuf.
  - simpl. by rewrite app_nil_r.
  - destruct (deliver_buffer st input t _ Hbuf) as [Hstep Hsize].
    unfold run, insertions in *. simpl.
    destruct (routed' (fst input) (snd input)) as [[[t' id] p]|].
    + destruct (String.eqb t' t); simpl.
      * rewrite push_last_n, <- Hsize in Hstep.
        destruct (IH _ _ _ Hstep) as [H1 H2].
        rewrite H1, H2, Hsize. by rewrite <- app_assoc.
      * rewrite <- Hsize in Hstep.
        destruct (IH _ _ _ Hstep) as [H1 H2]. by rewrite H1, H2, Hsize.
    + rewrite <- Hsize in Hstep.
      destruct (IH _ _ _ Hstep) as [H1 H2]. by rewrite H1, H2, Hsize.
Qed.

End WithRuntime.
End StoreFacts.

(** ** The claims *)

Import DictFacts ProcessorFacts EnricherFacts RouterFacts Pipeline Spec.
Import Edit EditFacts Backoff ConnectionFacts StoreFacts.

Section Claims.
Variable float_of_string : string -> option pyfloat.
Variable strptime_ok : string -> bool.
Abbreviation validate :=
  (Processor.validate_sensor_data float_of_string strptime_ok).
Abbreviation process := (process_sensor_data float_of_string).
Abbreviation route := (Manager.on_message float_of_string strptime_ok).
Abbreviation routed' := (routed float_of_string strptime_ok).
Abbreviation run' := (run float_of_string strptime_ok).
Abbreviation insertions' := (insertions float_of_string strptime_ok).

(** C1: a payload that has the fields of the message schema but lacks
    [sensor_id] or [sensor_type] is rejected by the validator (missing
    field [sensor_id], or unknown sensor type [None]), and [on_message]
    leaves the manager as it was and calls no callback. *)
Theorem schema_payload_dropped st now msg d :
  payload msg = Some (JDict d) ->
  dict_has "value" d = true -> dict_has "unit" d = true ->
  dict_has "timestamp" d = true -> dict_has "location" d = true ->
  dict_has "sensor_id" d = false \/ dict_has "sensor_type" d = false ->
  validate (JDict d) =
    Reject (if dict_has "sensor_id" d then InvalidSensorType JNull
            else MissingField "sensor_id") /\
  route st now msg = (Ok tt, st, []).
Proof.
  intros Hp Hv Hu Hts Hl Hmiss.
  assert (Hrej : validate (JDict d) =
    Reject (if dict_has "sensor_id" d then InvalidSensorType JNull
            else MissingField "sensor_id")).
  { unfold Processor.validate_sensor_data, Processor.validate_body.
    rewrite first_missing_dict. unfold required_fields. simpl List.find.
    rewrite Hv, Hu, Hts, Hl. simpl.
    destruct (dict_has "sensor_id" d) eqn:Hid; simpl; [|done].
    destruct Hmiss as [|Hty]; [done|]. run.
    unfold dict_has in Hty. destruct (dict_get "sensor_type" d); [done|].
    by run. }
  split; [done|].
  apply on_message_dropped. intros data Hd. rewrite Hp in Hd.
  injection Hd as <-. rewrite Hrej. done.
Qed.

(** C2, as amended: when the zone of an accepted reading is replaced, the
    validator accepts the new reading if the zone is a key of [ZONES] and
    rejects it as an invalid zone otherwise; the [sensor_types] of the
    zone play no part. *)
Theorem zone_check_is_membership d z :
  validate (JDict d) = Accept ->
  validate (JDict (with_zone z d)) =
  match assoc z ZONES with
  | Some _ => Accept
  | None => Reject (InvalidZone (JStr z))
  end.
Proof. apply validate_with_zone. Qed.

(** C4: for an accepted reading the [status_category] of the processed
    reading is the name of the first band of its sensor type, in the
    order of the catalogue, whose closed interval contains the value, and
    is "unknown" when no band contains it; it is never the empty
    string. *)
Theorem status_category_first_band now data :
  validate data = Accept ->
  exists d t def v p c,
    data = JDict d /\
    dict_get "sensor_type" d = Some (JStr t) /\
    assoc t SENSOR_TYPES = Some def /\
    (exists raw, dict_get "value" d = Some raw /\
                 py_float float_of_string raw = Ok v) /\
    process now data = JDict p /\
    dict_get "status_category" p = Some (JStr c) /\
    (first_band (thresholds def) v c \/
     (no_band (thresholds def) v /\ c = "unknown")) /\
    c <> EmptyString.
Proof.
  intros (d & t & def & v & -> & Ha)%validate_accept_inv.
  exists d, t, def, v. eexists. exists (categorize (thresholds def) v).
  split; [done|]. split; [apply Ha|]. split; [apply Ha|].
  split; [apply Ha|].
  split; [by apply (process_accepted _ _ _ _ _ _ _ Ha)|].
  split; [apply enrich_category|].
  split; [apply categorize_spec|].
  apply (categorize_nonempty t). apply Ha.
Qed.

(** C5: starting from a new manager, after any sequence of messages the
    buffer of a sensor type holds the last 1000 readings inserted for
    that type, in insertion order; so it never has more than 1000
    entries, after any prefix of the sequence, and has exactly 1000 once
    1000 or more readings have been inserted. *)
Theorem ring_buffer_keeps_last inputs t :
  is_Some (data_buffer init !! t) ->
  data_buffer (run' init inputs) !! t =
    Some (last_n 1000 (insertions' t inputs)) /\
  (forall k, exists buf,
     data_buffer (run' init (take k inputs)) !! t = Some buf /\
     (length buf <= 1000)%nat) /\
  ((1000 <= length (insertions' t inputs))%nat ->
   length (last_n 1000 (insertions' t inputs)) = 1000%nat).
Proof.
  intros [buf Hbuf].
  assert (Hinit : data_buffer init !! t = Some (last_n (buffer_size init) [])).
  { rewrite Hbuf. f_equal.
    unfold init in Hbuf. simpl in Hbuf.
    repeat (apply lookup_insert_Some in Hbuf as [[_ <-]|[_ Hbuf]]; [done|]).
    by rewrite lookup_empty in Hbuf. }
  split; [|split].
  - by destruct (run_buffer float_of_string strptime_ok inputs _ _ _ Hinit).
  - intros k.
    destruct (run_buffer float_of_string strptime_ok (take k inputs) _ _ _ Hinit)
      as [H _].
    eexists. split; [apply H|]. rewrite length_last_n. simpl. lia.
  - intros H. rewrite length_last_n. lia.
Qed.


(** C7: [register_callback] puts the callback at the end of the list of
    its sensor type; when a message of that type is then stored,
    [on_message] returns normally after calling every callback of the
    list once, in the order of registration, whether or not some of them
    raise, and logs one error for each that raises. *)
Theorem callbacks_all_called_in_order st t cb now msg id p :
  routed' now msg = Some (t, id, p) ->
  let cbs := default [] (callbacks st !! t) ++ [cb] in
  exists st',
    register_callback st t (Some cb) = Ok st' /\
    callbacks st' !! t = Some cbs /\
    (forall t', t' <> t -> callbacks st' !! t' = callbacks st !! t') /\
    fst (fst (route st' now msg)) = Ok tt /\
    invoked (snd (route st' now msg)) =
      map (fun c => (cb_id c, p)) cbs /\
    logged (snd (route st' now msg)) =
      omap (fun c => match cb_run c p with
                     | Some e => Some (t, e)
                     | None => None
                     end) cbs.
Proof.
  intros Hadm cbs. eexists. split; [reflexivity|]. simpl.
  split; [by rewrite lookup_insert_eq|].
  split; [by intros t' Hne; rewrite lookup_insert_ne|].
  rewrite on_message_routed, Hadm. simpl.
  unfold dispatched. simpl. rewrite lookup_insert_eq.
  split; [done|]. split.
  - apply invoked_run_callbacks.
  - apply logged_run_callbacks.
Qed.

(** C8: the processed reading of an accepted reading carries the unit of
    the catalogue entry of its sensor type, whatever unit the payload
    had, the clock value read during processing, and the trend
    "stable". *)
Theorem processed_unit_timestamp_trend now data :
  validate data = Accept ->
  exists d t def p,
    data = JDict d /\
    dict_get "sensor_type" d = Some (JStr t) /\
    assoc t SENSOR_TYPES = Some def /\
    process now data = JDict p /\
    dict_get "unit" p = Some (JStr (units def)) /\
    dict_get "processed_timestamp" p = Some (JStr now) /\
    dict_get "trend" p = Some (JStr "stable").
Proof.
  intros (d & t & def & v & -> & Ha)%validate_accept_inv.
  exists d, t, def. eexists.
  split; [done|]. split; [apply Ha|]. split; [apply Ha|].
  split; [by apply (process_accepted _ _ _ _ _ _ _ Ha)|].
  split; [apply enrich_unit|]. split; [apply enrich_timestamp|].
  apply enrich_trend.
Qed.

(** C10: for the type flood, a value strictly between 30 and 31 lies
    inside the valid range, and put into an accepted flood reading it
    gives a reading that is accepted too, whose category is "unknown"
    because no band contains the value. *)
Theorem flood_gap_is_unknown now d q :
  validate (JDict d) = Accept ->
  dict_get "sensor_type" d = Some (JStr "flood") ->
  (30 < q)%Q -> (q < 31)%Q ->
  let d' := with_value (JFloat (Fin q)) d in
  in_band (0, 1000) (Fin q) /\
  validate (JDict d') = Accept /\
  (forall def, assoc "flood" SENSOR_TYPES = Some def ->
               no_band (thresholds def) (Fin q)) /\
  exists p, process now (JDict d') = JDict p /\
            dict_get "status_category" p = Some (JStr "unknown").
Proof.
  intros Hacc Ht Hlo Hhi d'.
  assert (Hin : in_band (0, 1000) (Fin q)).
  { exists q. split; [done|]. simpl. split.
    - apply Qlt_le_weak. by apply Qlt_trans with 30%Q.
    - apply Qlt_le_weak. by apply Qlt_trans with 31%Q. }
  apply validate_accept_inv in Hacc as (d0 & t & def & v & [= <-] & Ha).
  assert (t = "flood") as -> by (destruct Ha; congruence).
  assert (Hdef : assoc "flood" SENSOR_TYPES = Some def) by apply Ha.
  vm_compute in Hdef. injection Hdef as <-.
  assert (Hno : forall lo hi, (q < inject_Z lo)%Q \/ (inject_Z hi < q)%Q ->
                 between (of_int lo) (Fin q) (of_int hi) = false).
  { intros lo hi H. apply between_not_in_band.
    intros (q' & [= <-] & H1 & H2). simpl in *.
    destruct H as [H|H]; [by apply Qlt_not_le in H|by apply Qlt_not_le in H]. }
  assert (Hlt : forall n, (31 <= n)%Z -> (q < inject_Z n)%Q).
  { intros n Hn. apply Qlt_le_trans with 31%Q; [done|].
    change 31%Q with (inject_Z 31). by rewrite <- Zle_Qle. }
  assert (Ha' := accepted_with_value _ _ _ _ _ _ (Fin q) Ha
                   (proj2 (between_in_band 0 1000 _) Hin)).
  split; [done|]. split; [by apply (accepted_validate _ _ _ _ _ _ Ha')|].
  assert (Hcat : categorize
            [("normal", (0, 30)); ("attention", (31, 50)); ("alert", (51, 100));
             ("danger", (101, 200)); ("critical", (201, 1000))] (Fin q)
            = "unknown").
  { simpl. rewrite !Hno; [done|..]; try (left; apply Hlt; lia).
    right. done. }
  split.
  - intros def Hdef. vm_compute in Hdef. injection Hdef as <-.
    simpl thresholds.
    destruct (categorize_spec
                [("normal", (0, 30)); ("attention", (31, 50));
                 ("alert", (51, 100)); ("danger", (101, 200));
                 ("critical", (201, 1000))] (Fin q))
      as [(i & b & Hi & _)|[Hnb _]]; [|done].
    rewrite Hcat in Hi.
    do 5 (destruct i as [|i]; [discriminate|]). discriminate.
  - eexists. split; [by apply (process_accepted _ _ _ _ _ _ _ Ha')|].
    simpl thresholds. rewrite Hcat. apply enrich_category.
Qed.

End Claims.

(** C3, as amended: when [connect()] fails and every reconnection fails
    too, the manager makes 5 attempts, sleeps between consecutive
    attempts for twice, 4, 8 and 16 times the delay it started with (10,
    20, 40 and 80 seconds from the initial 5), and then raises
    ConnectionError; and [connect] ends whatever the broker does. *)
Theorem connect_backoff_gives_up c st e :
  is_connected c = false ->
  connect_result c = Some e ->
  (forall k, reconnect_result c k <> None) ->
  max_reconnect_attempts st = 5%nat ->
  let d := reconnect_delay st in
  (exists st',
     connect c st =
       Some (Raise ConnectionError, st',
             [Reconnect 0; Sleep (d * 2); Reconnect 1; Sleep (d * 4);
              Reconnect 2; Sleep (d * 8); Reconnect 3; Sleep (d * 16);
              Reconnect 4]) /\
     connected st' = false) /\
  (forall c' st0, is_Some (connect c' st0)).
Proof.
  intros Hic Hcr Hfail Hmax d. split; [|apply connect_total].
  unfold connect, _try_reconnect. rewrite Hic, Hcr.
  destruct (reconnect_loop_fails c 5 6 0 (set_connected st false))
    as (st' & Hrun & Hc' & _); try done; [lia|].
  simpl max_reconnect_attempts. rewrite Hmax, Hrun. simpl.
  rewrite Hc'. simpl. exists st'. split; [|done].
  do 2 f_equal. subst d.
  repeat (f_equal; try lia).
Qed.


(** ** The claims on the samples *)

Module Checks.
Import Sample.

Abbreviation validate := (Processor.validate_sensor_data float_of_string strptime_ok).
Abbreviation process := (process_sensor_data float_of_string).
Abbreviation route := (Manager.on_message float_of_string strptime_ok).

Definition clock : string := "2024-03-01T12:00:01.000000".
Definition hot : list (string * json) :=
  reading "temperature" (JFloat (Fin 45)) "F" "Centro".
Definition too_hot : list (string * json) :=
  reading "temperature" (JFloat (Fin 500)) "°C" "Centro".
Definition anonymous : list (string * json) :=
  schema_payload (JFloat (Fin 45)) "°C" "Centro".
Definition flooded : list (string * json) :=
  reading "flood" (JFloat (Fin 12)) "mm" "Centro".
Definition noisy (zone : string) : list (string * json) :=
  reading "noise" (JFloat (Fin 45)) "dB" zone.

Lemma schema_payload_dropped_witness :
  validate (JDict anonymous) = Reject (MissingField "sensor_id") /\
  route with_callbacks clock (message_of "temperature" anonymous) =
    (Ok tt, with_callbacks, []).
Proof.
  apply (schema_payload_dropped float_of_string strptime_ok with_callbacks
           clock (message_of "temperature" anonymous) anonymous);
    try reflexivity.
  left. reflexivity.
Defined.

Lemma zone_check_is_membership_witness :
  validate (JDict (with_zone "Zona Norte" (noisy "Centro"))) = Accept.
Proof.
  apply (zone_check_is_membership float_of_string strptime_ok
           (noisy "Centro") "Zona Norte").
  reflexivity.
Defined.

(** A noise reading in Zona Norte, whose [sensor_types] do not list
    noise, is accepted. *)
Lemma noise_in_zona_norte_accepted :
  zone_allows "Zona Norte" "noise" = false /\
  validate (JDict (noisy "Zona Norte")) = Accept /\
  validate (JDict (noisy "Zona Norte")) <>
    Reject (InvalidZone (JStr "Zona Norte")).
Proof. split; [reflexivity|]. split; [reflexivity|discriminate]. Qed.

Lemma status_category_first_band_witness :
  exists d t def v p c,
    JDict hot = JDict d /\
    dict_get "sensor_type" d = Some (JStr t) /\
    assoc t SENSOR_TYPES = Some def /\
    (exists raw, dict_get "value" d = Some raw /\
                 py_float float_of_string raw = Ok v) /\
    process clock (JDict hot) = JDict p /\
    dict_get "status_category" p = Some (JStr c) /\
    (first_band (thresholds def) v c \/
     (no_band (thresholds def) v /\ c = "unknown")) /\
    c <> EmptyString.
Proof.
  apply (status_category_first_band float_of_string strptime_ok clock
           (JDict hot)).
  reflexivity.
Defined.

Definition three_messages : list (string * message) :=
  [(clock, message_of "temperature" hot);
   (clock, message_of "temperature" too_hot);
   (clock, message_of "temperature" hot)].

Lemma ring_buffer_keeps_last_witness :
  data_buffer (run float_of_string strptime_ok init three_messages)
    !! "temperature" =
    Some (last_n 1000
            (insertions float_of_string strptime_ok "temperature"
               three_messages)) /\
  (forall k, exists buf,
     data_buffer (run float_of_string strptime_ok init (take k three_messages))
       !! "temperature" = Some buf /\
     (length buf <= 1000)%nat) /\
  ((1000 <= length (insertions float_of_string strptime_ok "temperature"
                      three_messages))%nat ->
   length (last_n 1000
             (insertions float_of_string strptime_ok "temperature"
                three_messages)) = 1000%nat).
Proof.
  apply (ring_buffer_keeps_last float_of_string strptime_ok three_messages
           "temperature").
  exists []. reflexivity.
Defined.


Lemma callbacks_all_called_in_order_witness :
  let p := process clock (JDict hot) in
  let cbs := default [] (callbacks with_callbacks !! "temperature") ++ [quiet] in
  exists st',
    register_callback with_callbacks "temperature" (Some quiet) = Ok st' /\
    callbacks st' !! "temperature" = Some cbs /\
    (forall t', t' <> "temperature" ->
                callbacks st' !! t' = callbacks with_callbacks !! t') /\
    fst (fst (route st' clock (message_of "temperature" hot))) = Ok tt /\
    invoked (snd (route st' clock (message_of "temperature" hot))) =
      map (fun c => (cb_id c, p)) cbs /\
    logged (snd (route st' clock (message_of "temperature" hot))) =
      omap (fun c => match cb_run c p with
                     | Some e => Some ("temperature", e)
                     | None => None
                     end) cbs.
Proof.
  apply (callbacks_all_called_in_order float_of_string strptime_ok
           with_callbacks "temperature" quiet clock
           (message_of "temperature" hot) "centro_1"
           (process clock (JDict hot))).
  reflexivity.
Defined.

Lemma processed_unit_timestamp_trend_witness :
  exists d t def p,
    JDict hot = JDict d /\
    dict_get "sensor_type" d = Some (JStr t) /\
    assoc t SENSOR_TYPES = Some def /\
    process clock (JDict hot) = JDict p /\
    dict_get "unit" p = Some (JStr (units def)) /\
    dict_get "processed_timestamp" p = Some (JStr clock) /\
    dict_get "trend" p = Some (JStr "stable").
Proof.
  apply (processed_unit_timestamp_trend float_of_string strptime_ok clock
           (JDict hot)).
  reflexivity.
Defined.

Lemma flood_gap_is_unknown_witness :
  let d' := with_value (JFloat (Fin (61 # 2))) flooded in
  in_band (0, 1000) (Fin (61 # 2)) /\
  validate (JDict d') = Accept /\
  (forall def, assoc "flood" SENSOR_TYPES = Some def ->
               no_band (thresholds def) (Fin (61 # 2))) /\
  exists p, process clock (JDict d') = JDict p /\
            dict_get "status_category" p = Some (JStr "unknown").
Proof.
  apply (flood_gap_is_unknown float_of_string strptime_ok clock flooded
           (61 # 2)); reflexivity.
Defined.

Lemma connect_backoff_gives_up_witness :
  (exists st',
     connect unreachable init =
       Some (Raise ConnectionError, st',
             [Reconnect 0; Sleep (5 * 2); Reconnect 1; Sleep (5 * 4);
              Reconnect 2; Sleep (5 * 8); Reconnect 3; Sleep (5 * 16);
              Reconnect 4]) /\
     connected st' = false) /\
  (forall c' st0, is_Some (connect c' st0)).
Proof.
  apply (connect_backoff_gives_up unreachable init ConnectionError);
    try reflexivity.
  intros k. discriminate.
Defined.

(** The first wait of a new manager is 10 seconds, not 5. *)
Lemma first_wait_is_not_initial_delay :
  (out ← connect unreachable init; head (sleeps (snd out))) = Some 10 /\
  (out ← connect unreachable init; head (sleeps (snd out))) <> Some 5.
Proof. split; [reflexivity|discriminate]. Qed.

End Checks.

(** ** Further facts about the embedding *)

Import Shape Coverage Topic Retry Accessors.

Module ValidatorFacts.
Import Shape.

Lemma within_between lo hi x :
  is_number x = true ->
  between (Fin lo) (number_value x) (Fin hi) = true ->
  within (Fin lo, Fin hi) x.
Proof.
  intros Hn [H1 H2]%andb_true_iff. split; [done|].
  destruct (number_value x) as [q| | |]; try discriminate.
  exists q, lo, hi. repeat split; try done; by apply Qle_bool_iff.
Qed.

Lemma between_within lo hi x :
  within (Fin lo, Fin hi) x ->
  between (Fin lo) (number_value x) (Fin hi) = true.
Proof.
  intros [_ (q & lo' & hi' & -> & [= <- <-] & H1 & H2)].
  apply andb_true_iff. split; by apply Qle_bool_iff.
Qed.

Lemma in_bounds_within lat lon :
  is_number lat = true -> is_number lon = true ->
  in_bounds lat lon = true <-> within lat_range lat /\ within lon_range lon.
Proof.
  intros Hlat Hlon. unfold in_bounds. rewrite andb_true_iff. split.
  - intros [H1 H2]. split; by apply within_between.
  - intros [H1 H2]. split; by apply between_within.
Qed.

Lemma location_checks_accept_inv d :
  location_checks (JDict d) = Ok Accept ->
  exists loc coords lat lon zone, located d loc coords lat lon zone.
Proof.
  unfold location_checks. run.
  destruct (dict_get "location" d) as [loc|] eqn:Hloc; run.
  2:{ rewrite all_in_dict. simpl. discriminate. }
  destruct loc as [|b|n|x|s|l|loc].
  1-6: destruct (all_in location_fields _) as [[|]|e]; run; discriminate.
  rewrite all_in_dict. unfold location_fields, dict_has. simpl forallb.
  destruct (dict_get "zone" loc) as [zv|] eqn:Hzv; [|discriminate].
  destruct (dict_get "coordinates" loc) as [cv|] eqn:Hcv; [|discriminate].
  run. rewrite Hcv, Hzv. run.
  destruct cv as [|b|n|x|s|l|coords]; run; try discriminate.
  destruct (dict_get "lat" coords) as [lat|] eqn:Hlat; run; [|discriminate].
  destruct (dict_get "lon" coords) as [lon|] eqn:Hlon; run.
  2:{ rewrite orb_true_r. discriminate. }
  destruct (is_number lat) eqn:Hnlat; simpl; [|discriminate].
  destruct (is_number lon) eqn:Hnlon; simpl; [|discriminate].
  destruct (in_bounds lat lon) eqn:Hb; simpl; [|discriminate].
  destruct (lookup_obj zv ZONES) as [[types|]|e] eqn:Hk; run;
    try discriminate.
  apply lookup_obj_Some in Hk as (z & -> & Hk). intros _.
  apply in_bounds_within in Hb as [? ?]; try done.
  exists loc, coords, lat, lon, z. constructor; eauto.
Qed.

Lemma located_location_checks d loc coords lat lon zone :
  located d loc coords lat lon zone -> location_checks (JDict d) = Ok Accept.
Proof.
  intros [Hloc Hc Hlat Hlon Hwlat Hwlon Hz [types Hk]].
  unfold location_checks. run. rewrite Hloc. run.
  rewrite all_in_dict. unfold location_fields, dict_has. simpl forallb.
  rewrite Hz, Hc. cbn [andb negb]. run. rewrite Hlat, Hlon. run.
  destruct Hwlat as [Hn1 ?], Hwlon as [Hn2 ?]. rewrite Hn1, Hn2.
  cbn [andb negb orb].
  rewrite (proj2 (in_bounds_within lat lon Hn1 Hn2)) by done.
  cbn [negb]. by rewrite Hk.
Qed.

Section WithRuntime.
Variable float_of_string : string -> option pyfloat.
Variable strptime_ok : string -> bool.
Abbreviation validate :=
  (Processor.validate_sensor_data float_of_string strptime_ok).
Abbreviation accepted' := (accepted float_of_string strptime_ok).

(** The verdict on a dict whose five required fields are present, read off
    the later checks. *)
Lemma validate_with_fields d :
  forallb (fun f => dict_has f d) required_fields = true ->
  validate (JDict d) =
  match lookup_obj (default JNull (dict_get "sensor_type" d)) SENSOR_TYPES with
  | Raise e => Reject (ValidationError e)
  | Ok None => Reject (InvalidSensorType (default JNull (dict_get "sensor_type" d)))
  | Ok (Some def) =>
      match py_float float_of_string (default JNull (dict_get "value" d)) with
      | Raise ValueError | Raise TypeError => Reject InvalidValue
      | Raise e => Reject (ValidationError e)
      | Ok v =>
          if in_valid_range def v then
            match dict_get "timestamp" d with
            | Some (JStr ts) =>
                if strptime_ok ts then
                  match location_checks (JDict d) with
                  | Ok verdict => verdict
                  | Raise e => Reject (ValidationError e)
                  end
                else Reject InvalidTimestamp
            | _ => Reject (ValidationError TypeError)
            end
          else Reject (ValueOutOfRange v (valid_range def))
      end
  end.
Proof.
  intros Hf. unfold Processor.validate_sensor_data, Processor.validate_body.
  rewrite first_missing_dict, (forallb_find_none _ _ Hf). run.
  destruct (lookup_obj _ SENSOR_TYPES) as [[def|]|e]; run; try done.
  unfold value_check. run.
  assert (Hv : dict_has "value" d = true).
  { rewrite forallb_forall in Hf. apply Hf. unfold required_fields.
    simpl. by left. }
  assert (Ht : dict_has "timestamp" d = true).
  { rewrite forallb_forall in Hf. apply Hf. unfold required_fields.
    simpl. right. right. by left. }
  apply dict_has_get in Hv as [raw Hraw], Ht as [ts Hts].
  rewrite Hraw, Hts. run.
  destruct (py_float float_of_string raw) as [v|e]; run;
    [|by destruct e].
  destruct (in_valid_range def v); [|done].
  destruct ts as [|b|n|x|s|l|d']; run; try done.
  destruct (strptime_ok s); [|done].
  by destruct (location_checks (JDict d)) as [[|r]|e].
Qed.

(** The verdict when the value of an accepted reading is replaced. *)
Lemma value_set_verdict d raw :
  validate (JDict d) = Accept ->
  exists t def,
    dict_get "sensor_type" d = Some (JStr t) /\
    assoc t SENSOR_TYPES = Some def /\
    validate (JDict (with_field "value" raw d)) =
    match py_float float_of_string raw with
    | Ok v => if in_valid_range def v then Accept
              else Reject (ValueOutOfRange v (valid_range def))
    | Raise ValueError | Raise TypeError => Reject InvalidValue
    | Raise e => Reject (ValidationError e)
    end.
Proof.
  intros (d' & t & def & v & [= <-] & Ha)%validate_accept_inv.
  destruct Ha as [Hf Ht Hd _ _ (ts & Hts & Hok) Hloc].
  exists t, def. split; [done|]. split; [done|].
  unfold with_field.
  rewrite validate_with_fields by (by apply forallb_has_set).
  rewrite (dict_get_set_ne "sensor_type" "value"), Ht by done. run.
  rewrite Hd, dict_get_set_eq. run.
  destruct (py_float float_of_string raw) as [v'|e]; [|done].
  destruct (in_valid_range def v'); [|done].
  rewrite (dict_get_set_ne "timestamp" "value"), Hts, Hok by done.
  by rewrite location_checks_set, Hloc.
Qed.

End WithRuntime.
End ValidatorFacts.

Import ValidatorFacts.

Module FloatFacts.

Lemma float_of_int_small n : Z.abs n < 2 ^ 53 -> float_of_int n = Ok (of_int n).
Proof.
  intros H. unfold float_of_int.
  by rewrite (proj2 (Z.ltb_lt _ _) H).
Qed.

Lemma float_of_int_huge n : 2 ^ 1024 <= Z.abs n -> float_of_int n = Raise OverflowError.
Proof.
  intros H. unfold float_of_int.
  set (a := Z.abs n) in *.
  assert (Ha : 0 < a) by (pose proof (Z.pow_pos_nonneg 2 1024); lia).
  assert (H53 : (a <? 2 ^ 53) = false).
  { apply Z.ltb_ge. assert (2 ^ 53 <= 2 ^ 1024) by (apply Z.pow_le_mono_r; lia).
    lia. }
  rewrite H53. cbv zeta.
  set (sh := Z.log2 a + 1 - 53).
  assert (Hlog : 1024 <= Z.log2 a).
  { apply Z.log2_le_pow2; [lia|done]. }
  assert (Hsh : 0 <= sh) by (unfold sh; lia).
  destruct (Z.log2_spec a Ha) as [Hlo _].
  set (q := Z.shiftr a sh).
  assert (Hq : 2 ^ 52 <= q).
  { unfold q. rewrite Z.shiftr_div_pow2 by done.
    apply Z.div_le_lower_bound; [by apply Z.pow_pos_nonneg|].
    rewrite <- Z.pow_add_r by lia.
    replace (sh + 52) with (Z.log2 a) by (unfold sh; lia). done. }
  match goal with
  | |- context [Z.shiftl (q + ?u) sh] => set (up := u)
  end.
  assert (Hup : 0 <= up) by (subst up; destruct (orb _ _); lia).
  assert (Hm : 2 ^ 1024 <= Z.shiftl (q + up) sh).
  { rewrite Z.shiftl_mul_pow2 by done.
    assert (2 ^ 52 * 2 ^ sh <= (q + up) * 2 ^ sh).
    { apply Z.mul_le_mono_nonneg_r; [by apply Z.pow_nonneg|lia]. }
    rewrite <- Z.pow_add_r in H0 by lia.
    assert (2 ^ 1024 <= 2 ^ (52 + sh)).
    { apply Z.pow_le_mono_r; [lia|unfold sh; lia]. }
    lia. }
  by rewrite (proj2 (Z.leb_le _ _) Hm).
Qed.

End FloatFacts.

Module CoverageFacts.
Import Coverage.

Lemma categorized_cons_hit cat lo hi rest v :
  Spec.in_band (lo, hi) v -> categorized ((cat, (lo, hi)) :: rest) v.
Proof.
  intros Hin. exists (lo, hi). simpl.
  rewrite (proj2 (between_in_band lo hi v) Hin).
  split; [apply elem_of_cons; by left|done].
Qed.

Lemma categorized_cons_miss cat lo hi rest v :
  ~ Spec.in_band (lo, hi) v -> categorized rest v ->
  categorized ((cat, (lo, hi)) :: rest) v.
Proof.
  intros Hout (b & Hb & Hin). exists b. simpl.
  rewrite (proj2 (between_not_in_band lo hi v) Hout).
  split; [apply elem_of_cons; by right|done].
Qed.

Lemma gapless_categorized_Q bands :
  forall prev stop q,
    gapless 0 prev bands stop = true ->
    (inject_Z prev < q)%Q -> (q <= inject_Z stop)%Q ->
    categorized bands (Fin q).
Proof.
  induction bands as [|[cat [lo hi]] rest IH]; intros prev stop q Hg Hlo Hhi.
  - simpl in Hg. apply Z.leb_le in Hg. exfalso.
    apply (Qlt_not_le _ _ Hlo). apply Qle_trans with (inject_Z stop); [done|].
    by rewrite <- Zle_Qle.
  - simpl in Hg. apply andb_true_iff in Hg as [Hl%Z.leb_le Hg].
    destruct (Qlt_le_dec (inject_Z hi) q) as [Hgt|Hle].
    + apply categorized_cons_miss.
      * intros (q' & [= <-] & _ & H2). simpl in H2.
        by apply (Qlt_not_le _ _ Hgt).
      * apply (IH _ _ _ Hg); [|done].
        destruct (Z.max_spec prev hi) as [[_ ->]|[_ ->]]; done.
    + apply categorized_cons_hit. exists q. split; [done|]. simpl.
      split; [|done]. apply Qlt_le_weak.
      apply Qle_lt_trans with (inject_Z prev); [|done].
      rewrite <- Zle_Qle. lia.
Qed.

Lemma gapless_categorized_Z bands :
  forall prev stop n,
    gapless 1 prev bands stop = true ->
    prev < n -> n <= stop ->
    categorized bands (of_int n).
Proof.
  induction bands as [|[cat [lo hi]] rest IH]; intros prev stop n Hg Hlo Hhi.
  - simpl in Hg. apply Z.leb_le in Hg. lia.
  - simpl in Hg. apply andb_true_iff in Hg as [Hl%Z.leb_le Hg].
    destruct (Z_lt_le_dec hi n) as [Hgt|Hle].
    + apply categorized_cons_miss.
      * intros (q' & [= <-] & _ & H2). simpl in H2.
        rewrite <- Zle_Qle in H2. lia.
      * apply (IH _ _ _ Hg); lia.
    + apply categorized_cons_hit. exists (inject_Z n). split; [done|].
      simpl. rewrite <- !Zle_Qle. lia.
Qed.

Lemma covers_categorized_Z def n :
  covers 1 def = true ->
  in_valid_range def (of_int n) = true ->
  categorized (thresholds def) (of_int n).
Proof.
  unfold covers, in_valid_range. destruct (valid_range def) as [rlo rhi].
  destruct (thresholds def) as [|[cat [lo hi]] rest]; [discriminate|].
  simpl fst. simpl snd.
  intros [[H1%Z.leb_le H2%Z.leb_le]%andb_true_iff Hg]%andb_true_iff Hr.
  apply between_in_band in Hr as (q & [= <-] & Hlo & Hhi). simpl in *.
  rewrite <- Zle_Qle in Hlo, Hhi.
  destruct (Z_lt_le_dec hi n) as [Hgt|Hle].
  - apply categorized_cons_miss.
    + intros (q' & [= <-] & _ & H3). simpl in H3.
      rewrite <- Zle_Qle in H3. lia.
    + by apply (gapless_categorized_Z rest hi rhi).
  - apply categorized_cons_hit. exists (inject_Z n). split; [done|].
    simpl. rewrite <- !Zle_Qle. lia.
Qed.

Lemma covers_categorized_Q def v :
  covers 0 def = true ->
  in_valid_range def v = true ->
  categorized (thresholds def) v.
Proof.
  unfold covers, in_valid_range. destruct (valid_range def) as [rlo rhi].
  destruct (thresholds def) as [|[cat [lo hi]] rest]; [discriminate|].
  simpl fst. simpl snd.
  intros [[H1%Z.leb_le H2%Z.leb_le]%andb_true_iff Hg]%andb_true_iff Hr.
  apply between_in_band in Hr as (q & -> & Hlo & Hhi). simpl in *.
  destruct (Qlt_le_dec (inject_Z hi) q) as [Hgt|Hle].
  - apply categorized_cons_miss.
    + intros (q' & [= <-] & _ & H3). simpl in H3.
      by apply (Qlt_not_le _ _ Hgt).
    + by apply (gapless_categorized_Q rest hi rhi).
  - apply categorized_cons_hit. exists q. split; [done|]. simpl.
    split; [|done]. apply Qle_trans with (inject_Z rlo); [|done].
    by rewrite <- Zle_Qle.
Qed.

Lemma categorized_not_unknown def v :
  no_unknown_name def = true ->
  categorized (thresholds def) v ->
  categorize (thresholds def) v <> "unknown".
Proof.
  unfold no_unknown_name. rewrite forallb_forall.
  intros Hn (b & Hb & _) E.
  apply list_elem_of_In, Hn in Hb. simpl in Hb. rewrite E in Hb.
  discriminate.
Qed.

Lemma catalog_covers_integers t def :
  assoc t SENSOR_TYPES = Some def ->
  covers 1 def = true /\ no_unknown_name def = true.
Proof.
  intros H. split.
  - revert H. apply (assoc_forallb (covers 1)). by vm_compute.
  - revert H. apply (assoc_forallb no_unknown_name). by vm_compute.
Qed.

End CoverageFacts.

Import FloatFacts CoverageFacts.

Module MutationFacts.
Section WithRuntime.
Variable float_of_string : string -> option pyfloat.
Variable strptime_ok : string -> bool.

Lemma location_checks_with_coordinates d loc coords lat0 lon0 zone lat lon :
  located d loc coords lat0 lon0 zone ->
  location_checks (JDict (with_coordinates lat lon d)) =
  Ok (if negb (is_number lat) || negb (is_number lon)
      then Reject InvalidCoordinates
      else if negb (in_bounds lat lon) then Reject CoordinatesOutOfBounds
      else Accept).
Proof.
  intros [Hloc Hc _ _ _ _ Hz [types Hk]].
  unfold with_coordinates, location_checks. rewrite Hloc, Hc. run.
  rewrite dict_get_set_eq. run. rewrite all_in_dict.
  unfold location_fields. simpl forallb. rewrite !dict_has_set.
  unfold dict_has. rewrite Hz. cbn [String.eqb Ascii.eqb Bool.eqb andb orb negb].
  run. rewrite dict_get_set_eq. run.
  rewrite dict_get_set_eq.
  rewrite (dict_get_set_ne "lat" "lon") by done. rewrite dict_get_set_eq. run.
  destruct (negb (is_number lat) || negb (is_number lon)); [done|].
  destruct (negb (in_bounds lat lon)); [done|].
  rewrite (dict_get_set_ne "zone" "coordinates") by done.
  rewrite Hz. run. by rewrite Hk.
Qed.

Lemma with_coordinates_get k lat lon d :
  k <> "location" -> dict_get k (with_coordinates lat lon d) = dict_get k d.
Proof.
  intros Hk. unfold with_coordinates.
  destruct (dict_get "location" d) as [[| | | | | |loc]|]; try done.
  destruct (dict_get "coordinates" loc) as [[| | | | | |coords]|]; try done.
  by rewrite dict_get_set_ne.
Qed.

Lemma with_coordinates_has lat lon d fields :
  forallb (fun f => dict_has f d) fields = true ->
  forallb (fun f => dict_has f (with_coordinates lat lon d)) fields = true.
Proof.
  unfold with_coordinates.
  destruct (dict_get "location" d) as [[| | | | | |loc]|]; try done.
  destruct (dict_get "coordinates" loc) as [[| | | | | |coords]|]; try done.
  apply forallb_has_set.
Qed.

End WithRuntime.
End MutationFacts.

Import MutationFacts.

Module EnrichFacts.

Lemma dict_set_same k v d : dict_get k d = Some v -> dict_set k v d = d.
Proof.
  induction d as [|[k' v'] d IH]; simpl; [discriminate|].
  destruct (String.eqb_spec k k') as [->|Hne].
  - by intros [= ->].
  - intros H. by rewrite IH.
Qed.

Lemma dict_set_set k v v' d : dict_set k v (dict_set k v' d) = dict_set k v d.
Proof.
  induction d as [|[k' v0] d IH]; simpl.
  - by rewrite String.eqb_refl.
  - destruct (String.eqb k k') eqn:E; simpl.
    + by rewrite String.eqb_refl.
    + by rewrite E, IH.
Qed.

Lemma dict_set_comm k k' v v' d :
  k <> k' -> dict_has k d = true ->
  dict_set k v (dict_set k' v' d) = dict_set k' v' (dict_set k v d).
Proof.
  intros Hne. unfold dict_has.
  induction d as [|[k0 v0] d IH]; simpl; [discriminate|].
  destruct (String.eqb_spec k k0) as [->|Hk].
  - intros _. apply String.eqb_neq in Hne as Hne1.
    assert (Hne2 : String.eqb k' k0 = false).
    { apply String.eqb_neq. congruence. }
    rewrite Hne2. simpl. by rewrite String.eqb_refl, Hne2.
  - intros H. apply String.eqb_neq in Hk as Hk1.
    destruct (String.eqb_spec k' k0) as [->|Hk'].
    + simpl. apply String.eqb_neq in Hne as Hne1.
      by rewrite Hne1, String.eqb_refl.
    + simpl. apply String.eqb_neq in Hk' as Hk2.
      by rewrite Hk1, Hk2, IH.
Qed.

Lemma dict_has_set_eq k v d : dict_has k (dict_set k v d) = true.
Proof. by rewrite dict_has_set, String.eqb_refl. Qed.

Lemma dict_has_set_keep k k' v d :
  dict_has k d = true -> dict_has k (dict_set k' v d) = true.
Proof. intros H. rewrite dict_has_set, H. apply orb_true_r. Qed.

Lemma enrich_enrich d now now' c tr u :
  enrich (enrich d now c tr u) now' c tr u = enrich d now' c tr u.
Proof.
  unfold enrich.
  set (ts := "processed_timestamp"). set (kc := "status_category").
  set (kt := "trend"). set (ku := "unit").
  assert (Hpass :
    dict_set ts (JStr now')
      (dict_set ku (JStr u) (dict_set kt (JStr tr) (dict_set kc (JStr c)
         (dict_set ts (JStr now) d)))) =
    dict_set ku (JStr u) (dict_set kt (JStr tr) (dict_set kc (JStr c)
         (dict_set ts (JStr now') d)))).
  { rewrite (dict_set_comm ts ku); [|done|].
    2:{ do 2 apply dict_has_set_keep. apply dict_has_set_eq. }
    rewrite (dict_set_comm ts kt); [|done|].
    2:{ apply dict_has_set_keep. apply dict_has_set_eq. }
    rewrite (dict_set_comm ts kc); [|done|apply dict_has_set_eq].
    by rewrite dict_set_set. }
  rewrite Hpass.
  rewrite (dict_set_same kc (JStr c)).
  2:{ rewrite !dict_get_set_ne by done. apply dict_get_set_eq. }
  rewrite (dict_set_same kt (JStr tr)).
  2:{ rewrite !dict_get_set_ne by done. apply dict_get_set_eq. }
  apply dict_set_same, dict_get_set_eq.
Qed.

Section WithRuntime.
Variable float_of_string : string -> option pyfloat.

Lemma process_body_inv now data p :
  process_body float_of_string now data = Ok p ->
  exists d x raw v def,
    data = JDict d /\ dict_get "sensor_type" d = Some x /\
    dict_get "value" d = Some raw /\
    py_float float_of_string raw = Ok v /\
    lookup_obj x SENSOR_TYPES = Ok (Some def) /\
    p = JDict (enrich d now (categorize (thresholds def) v) "stable"
                 (units def)).
Proof.
  unfold process_body.
  destruct data as [|b|n|f|s|l|d]; run; try discriminate.
  destruct (dict_get "sensor_type" d) as [x|] eqn:Hx; run; [|discriminate].
  destruct (dict_get "value" d) as [raw|] eqn:Hraw; run; [|discriminate].
  destruct (py_float float_of_string raw) as [v|e] eqn:Hv; run;
    [|discriminate].
  destruct (lookup_obj x SENSOR_TYPES) as [[def|]|e] eqn:Hd; run;
    try discriminate.
  intros [= <-]. by exists d, x, raw, v, def.
Qed.

Lemma process_body_enriched now now' d x raw v def :
  dict_get "sensor_type" d = Some x ->
  dict_get "value" d = Some raw ->
  py_float float_of_string raw = Ok v ->
  lookup_obj x SENSOR_TYPES = Ok (Some def) ->
  process_body float_of_string now'
    (JDict (enrich d now (categorize (thresholds def) v) "stable" (units def)))
  = Ok (JDict (enrich d now' (categorize (thresholds def) v) "stable"
                 (units def))).
Proof.
  intros Hx Hraw Hv Hd. unfold process_body. run.
  rewrite (enrich_other "sensor_type"), Hx by done. run.
  rewrite (enrich_other "value"), Hraw by done. run.
  rewrite Hv. run. rewrite Hd. run.
  by rewrite enrich_enrich.
Qed.

End WithRuntime.
End EnrichFacts.

Module TopicFacts.
Import Topic.

Lemma split_slash_nonempty s : split_slash s <> [].
Proof.
  destruct s as [|c s]; simpl; [done|].
  destruct (Ascii.eqb c slash); [done|]. by destruct (split_slash s).
Qed.

Lemma split_slash_app a b :
  split_slash (a +:+ String slash b) = split_slash a ++ split_slash b.
Proof.
  induction a as [|c a IH]; simpl.
  - done.
  - destruct (Ascii.eqb c slash); [by rewrite IH|].
    rewrite IH. destruct (split_slash a) as [|p ps] eqn:E; [|done].
    by destruct (split_slash_nonempty a).
Qed.

Lemma split_slash_no_slash s : no_slash s = true -> split_slash s = [s].
Proof.
  induction s as [|c s IH]; simpl; [done|].
  intros [Hc Hs]%andb_true_iff. apply negb_true_iff in Hc.
  by rewrite Hc, IH.
Qed.

Lemma from_end_1_app l x : from_end 1 (l ++ [x]) = Ok x.
Proof.
  unfold from_end. rewrite length_app. simpl.
  replace (length l + 1 <? 1)%nat with false
    by (symmetry; apply Nat.ltb_ge; lia).
  replace (length l + 1 - 1)%nat with (length l) by lia.
  by rewrite list_lookup_middle.
Qed.

Lemma from_end_2_app l x y : from_end 2 (l ++ [x; y]) = Ok x.
Proof.
  unfold from_end. rewrite length_app. simpl.
  replace (length l + 2 <? 2)%nat with false
    by (symmetry; apply Nat.ltb_ge; lia).
  replace (length l + 2 - 2)%nat with (length l) by lia.
  by rewrite list_lookup_middle.
Qed.

Lemma ranges_agree t r :
  assoc t ranges = Some r ->
  exists def, assoc t SENSOR_TYPES = Some def /\ valid_range def = r.
Proof.
  unfold ranges. simpl. intros H.
  repeat match type of H with
         | context [String.eqb t ?s] =>
             destruct (String.eqb_spec t s) as [->|_];
             [injection H as <-; eexists; split; reflexivity|]
         end.
  discriminate.
Qed.

End TopicFacts.

Import TopicFacts.

Module ReaderFacts.

Lemma last_n_suffix {A} n (l : list A) : last_n n l `suffix_of` l.
Proof. unfold last_n. apply suffix_drop. Qed.

Lemma last_n_snoc {A} (l : list A) x : last_n 1 (l ++ [x]) = [x].
Proof.
  unfold last_n. rewrite length_app. simpl.
  replace (length l + 1 - 1)%nat with (length l) by lia.
  by rewrite drop_app_length.
Qed.

Lemma last_n_push_one size buf x :
  (0 < size)%nat -> last_n 1 (push size buf x) = [x].
Proof.
  intros Hs. unfold push.
  destruct (Nat.ltb_spec size (length (buf ++ [x]))) as [H|H].
  - destruct buf as [|y buf]; simpl in *; [lia|]. apply last_n_snoc.
  - apply last_n_snoc.
Qed.

Lemma stored_latest st t id p :
  sensor_data (stored st t id p) !! t =
    Some (<[id := p]> (default ∅ (sensor_data st !! t))).
Proof.
  unfold stored. simpl. rewrite lookup_insert_eq.
  by destruct (data_buffer st !! t).
Qed.

Lemma stored_latest_ne st t id p t' :
  t' <> t -> sensor_data (stored st t id p) !! t' = sensor_data st !! t'.
Proof.
  intros Hne. unfold stored. simpl. rewrite lookup_insert_ne by done.
  by destruct (data_buffer st !! t).
Qed.

Lemma stored_buffer_ne st t id p t' :
  t' <> t -> data_buffer (stored st t id p) !! t' = data_buffer st !! t'.
Proof.
  intros Hne. unfold stored. simpl.
  destruct (data_buffer st !! t); simpl; [|done].
  by rewrite lookup_insert_ne.
Qed.


Lemma stored_fields st t id p :
  callbacks (stored st t id p) = callbacks st /\
  buffer_size (stored st t id p) = buffer_size st /\
  connected (stored st t id p) = connected st /\
  reconnect_delay (stored st t id p) = reconnect_delay st /\
  max_reconnect_attempts (stored st t id p) = max_reconnect_attempts st /\
  dom (data_buffer (stored st t id p)) = dom (data_buffer st).
Proof.
  unfold stored. destruct (data_buffer st !! t) as [buf|] eqn:E; simpl;
    [|done].
  do 5 (split; [done|]).
  rewrite dom_insert_L. apply elem_of_dom_2 in E.
  apply subseteq_union_1_L. by apply singleton_subseteq_l.
Qed.

End ReaderFacts.

Module RetryFacts.
Import Retry.

Lemma same_store_refl st : same_store st st.
Proof. by repeat split. Qed.

(** What the loop does, whatever the broker answers. *)
Lemma reconnect_loop_any c :
  forall fuel attempts st r st' evs,
    reconnect_loop fuel c attempts st = Some (r, st', evs) ->
    (attempts <= max_reconnect_attempts st)%nat ->
    same_store st st' /\
    tries evs = seq attempts (length (tries evs)) /\
    (attempts + length (tries evs) <= max_reconnect_attempts st)%nat /\
    (length (sleeps evs) <= length (tries evs))%nat /\
    match r with
    | Some _ =>
        connected st' = true /\
        (1 <= length (tries evs))%nat /\
        reconnect_delay st' =
          reconnect_delay st * 2 ^ Z.of_nat (length (tries evs) - 1)
    | None =>
        connected st' = connected st /\
        reconnect_delay st' =
          reconnect_delay st * 2 ^ Z.of_nat (length (tries evs)) /\
        (connected st = false ->
         (attempts + length (tries evs))%nat = max_reconnect_attempts st)
    end.
Proof.
  induction fuel as [|fuel IH]; intros attempts st r st' evs Hrun Hle;
    [discriminate|].
  simpl in Hrun.
  destruct (negb (connected st) &&
            (attempts <? max_reconnect_attempts st)%nat) eqn:Hguard.
  - apply andb_true_iff in Hguard as [Hc%negb_true_iff Hlt%Nat.ltb_lt].
    destruct (reconnect_result c attempts) as [e|].
    + destruct (reconnect_loop fuel c (S attempts) _)
        as [[[r0 st0] evs0]|] eqn:Hrec; [|discriminate].
      simpl in Hrun. injection Hrun as <- <- <-.
      apply IH in Hrec as (Hs & Ht & Hb & Hsl & Hr); [|simpl; lia].
      match goal with |- context [tries ?l] => set (all := l) end.
      assert (Htr : tries all = attempts :: tries evs0).
      { subst all. simpl. by destruct (_ <? _)%nat. }
      assert (Hsle : (length (sleeps all) <= S (length (sleeps evs0)))%nat).
      { subst all. simpl. destruct (_ <? _)%nat; simpl; lia. }
      clearbody all.
      simpl max_reconnect_attempts in *. simpl reconnect_delay in *.
      simpl connected in *.
      rewrite Htr. simpl length.
      split; [by destruct Hs as (? & ? & ? & ? & ?)|].
      split; [simpl; by rewrite <- Ht|].
      split; [lia|]. split; [lia|].
      destruct r0 as [u|].
      * destruct Hr as (Hc' & Hone & Hd). split; [done|]. split; [lia|].
        rewrite Hd.
        replace (S (length (tries evs0)) - 1)%nat
          with (S (length (tries evs0) - 1)) by lia.
        rewrite Nat2Z.inj_succ, Z.pow_succ_r by lia. lia.
      * destruct Hr as (Hc' & Hd & Hmax).
        split; [by rewrite Hc'|]. split.
        -- rewrite Hd, Nat2Z.inj_succ, Z.pow_succ_r by lia. lia.
        -- intros _. specialize (Hmax Hc). lia.
    + injection Hrun as <- <- <-. simpl.
      split; [by repeat split|]. split; [done|]. split; [lia|].
      split; [lia|]. split; [done|]. split; [lia|]. lia.
  - injection Hrun as <- <- <-. simpl.
    split; [apply same_store_refl|]. split; [done|]. split; [lia|].
    split; [lia|]. split; [done|]. split; [lia|].
    intros Hc. rewrite Hc in Hguard. simpl in Hguard.
    apply Nat.ltb_ge in Hguard. lia.
Qed.

End RetryFacts.

Import RetryFacts.

Module HandlerFacts.

Lemma try_reconnect_any c st r st' evs :
  _try_reconnect c st = Some (r, st', evs) ->
  same_store st st' /\
  tries evs = seq 0 (length (tries evs)) /\
  (length (tries evs) <= max_reconnect_attempts st)%nat /\
  (length (sleeps evs) <= length (tries evs))%nat /\
  (r = Ok tt \/ r = Raise ConnectionError) /\
  (r = Raise ConnectionError ->
   connected st' = false /\
   (connected st = false ->
    length (tries evs) = max_reconnect_attempts st)) /\
  (exists k, (k <= length (tries evs))%nat /\
             reconnect_delay st' = reconnect_delay st * 2 ^ Z.of_nat k).
Proof.
  unfold _try_reconnect.
  destruct (reconnect_loop _ c 0%nat st) as [[[r0 st0] evs0]|] eqn:Hrun;
    [|discriminate].
  apply reconnect_loop_any in Hrun as (Hs & Ht & Hb & Hsl & Hr); [|lia].
  simpl. destruct r0 as [[]|].
  - intros [= <- <- <-]. destruct Hr as (Hc & Hone & Hd).
    split; [done|]. split; [done|]. split; [lia|]. split; [done|]. split; [by left|]. split; [discriminate|].
    exists (length (tries evs0) - 1)%nat. split; [lia|done].
  - destruct Hr as (Hc & Hd & Hmax).
    destruct (negb (connected st0)) eqn:Hn; intros [= <- <- <-].
    + split; [exact Hs|]. split; [exact Ht|]. split; [lia|]. split; [exact Hsl|]. split; [by right|].
      split; [|exists (length (tries evs0)); split; [lia|done]]. intros _.
      split; [by apply negb_true_iff|]. intros Hst. by apply Hmax.
    + split; [done|]. split; [done|]. split; [lia|]. split; [done|]. split; [by left|]. split; [discriminate|].
      exists (length (tries evs0)). split; [lia|done].
Qed.

Lemma reconnect_loop_succeeds c k :
  forall fuel attempts st,
    connected st = false ->
    (forall i, (attempts <= i < attempts + k)%nat ->
               reconnect_result c i <> None) ->
    reconnect_result c (attempts + k) = None ->
    (attempts + k < max_reconnect_attempts st)%nat ->
    (k < fuel)%nat ->
    exists st' evs,
      reconnect_loop fuel c attempts st = Some (Some tt, st', evs) /\
      connected st' = true /\
      reconnect_delay st' = reconnect_delay st * 2 ^ Z.of_nat k /\
      tries evs = seq attempts (S k) /\
      sleeps evs =
        map (fun i => reconnect_delay st * 2 ^ Z.of_nat i) (seq 1 k).
Proof.
  induction k as [|k IH]; intros fuel attempts st Hc Hfail Hok Hlt Hfuel.
  - destruct fuel as [|fuel]; [lia|]. simpl. rewrite Hc. simpl.
    replace (attempts <? max_reconnect_attempts st)%nat with true
      by (symmetry; apply Nat.ltb_lt; lia).
    rewrite Nat.add_0_r in Hok. rewrite Hok.
    eexists _, _. split; [done|]. simpl. repeat split. lia.
  - destruct fuel as [|fuel]; [lia|]. simpl. rewrite Hc. simpl.
    replace (attempts <? max_reconnect_attempts st)%nat with true
      by (symmetry; apply Nat.ltb_lt; lia).
    destruct (reconnect_result c attempts) as [e|] eqn:He.
    2:{ destruct (Hfail attempts); [lia|done]. }
    destruct (IH fuel (S attempts)
                (set_reconnect_delay st (reconnect_delay st * 2)))
      as (st' & evs & Hrun & Hc' & Hd & Ht & Hsl).
    { done. }
    { intros i Hi. apply Hfail. lia. }
    { by replace (S attempts + k)%nat with (attempts + S k)%nat by lia. }
    { simpl. lia. }
    { lia. }
    rewrite Hrun. simpl.
    replace (S attempts <? max_reconnect_attempts st)%nat with true
      by (symmetry; apply Nat.ltb_lt; lia).
    eexists _, _. split; [done|]. split; [done|]. split.
    + rewrite Hd. simpl reconnect_delay.
      rewrite (Nat2Z.inj_succ k), Z.pow_succ_r by lia. lia.
    + split; [simpl; by rewrite Ht|]. simpl. rewrite Hsl. f_equal; try lia.
      simpl reconnect_delay. rewrite <- (seq_shift k 1), map_map.
      apply map_ext. intros i.
      rewrite (Nat2Z.inj_succ i), Z.pow_succ_r by lia. lia.
Qed.

End HandlerFacts.

Module AccessorFacts.

Lemma keys_has t (d : list (string * json)) :
  existsb (String.eqb t) (map fst d) = dict_has t d.
Proof.
  unfold dict_has. induction d as [|[k v] d IH]; simpl; [done|].
  by destruct (String.eqb t k).
Qed.

Lemma zone_cases z types :
  assoc z ZONES = Some types ->
  (z, types) ∈ ZONES.
Proof.
  induction ZONES as [|[k v] l IH]; simpl; [discriminate|].
  destruct (String.eqb_spec z k) as [->|_].
  - intros [= ->]. apply elem_of_cons. by left.
  - intros H. apply elem_of_cons. right. by apply IH.
Qed.

(** When the zone check passes: the zone is a key of [ZONES], the data is
    a dict, and every expected type is one of its keys. *)
Lemma validate_zone_sensors_true zone sensor_data :
  validate_zone_sensors zone sensor_data = true <->
  exists z types d,
    zone = JStr z /\ assoc z ZONES = Some types /\ sensor_data = JDict d /\
    forall t, t ∈ types -> dict_has t d = true.
Proof.
  unfold validate_zone_sensors, validate_zone_sensors_body. split.
  - destruct (lookup_obj zone ZONES) as [[types|]|e] eqn:Hz; run;
      try discriminate.
    apply lookup_obj_Some in Hz as (z & -> & Hz).
    destruct sensor_data as [| | | | | |d]; simpl; try discriminate.
    intros Hall. exists z, types, d. do 3 (split; [done|]).
    intros t Ht. rewrite forallb_forall in Hall.
    rewrite <- keys_has. apply Hall. by apply list_elem_of_In.
  - intros (z & types & d & -> & Hz & -> & Hall). run. rewrite Hz.
    cbn [py_keys]. run.
    apply forallb_forall. intros t Ht. rewrite keys_has. apply Hall.
    by apply list_elem_of_In.
Qed.

End AccessorFacts.

(** ** Further properties of the code *)

Section ValidatorProperties.
Variable float_of_string : string -> option pyfloat.
Variable strptime_ok : string -> bool.
Abbreviation validate :=
  (Processor.validate_sensor_data float_of_string strptime_ok).
Abbreviation process := (process_sensor_data float_of_string).

(** X1: the validator accepts exactly the dicts that have the five
    required fields, a sensor type of the catalogue, a value that
    [float] converts into the valid range of the type, a timestamp that
    is a str and parses, and a location dict with a known zone and
    numeric coordinates inside the bounds. *)
Theorem accept_iff_well_formed data :
  validate data = Accept <->
  exists d t def v ts loc coords lat lon zone,
    data = JDict d /\
    forallb (fun f => dict_has f d) required_fields = true /\
    dict_get "sensor_type" d = Some (JStr t) /\
    assoc t SENSOR_TYPES = Some def /\
    (exists raw, dict_get "value" d = Some raw /\
                 py_float float_of_string raw = Ok v) /\
    in_band (valid_range def) v /\
    dict_get "timestamp" d = Some (JStr ts) /\ strptime_ok ts = true /\
    located d loc coords lat lon zone.
Proof.
  split.
  - intros (d & t & def & v & -> & Ha)%validate_accept_inv.
    destruct Ha as [Hf Ht Hd Hv Hr (ts & Hts & Hok) Hloc].
    apply location_checks_accept_inv in Hloc
      as (loc & coords & lat & lon & zone & Hloc).
    exists d, t, def, v, ts, loc, coords, lat, lon, zone.
    do 5 (split; [done|]). split; [|done].
    unfold in_valid_range in Hr. destruct (valid_range def) as [lo hi].
    by apply between_in_band.
  - intros (d & t & def & v & ts & loc & coords & lat & lon & zone & -> &
            Hf & Ht & Hd & Hv & Hr & Hts & Hok & Hloc).
    apply (accepted_validate _ _ d t def v). constructor; try done.
    + unfold in_valid_range. destruct (valid_range def) as [lo hi].
      by apply between_in_band.
    + by exists ts.
    + by apply (located_location_checks _ _ _ _ _ _ Hloc).
Qed.

(** X2: when a dict lacks a required field, the validator reports the
    first field that is missing in the order value, unit, timestamp,
    sensor_id, location, whatever else the dict holds. *)
Theorem first_missing_field_reported d pre f post :
  required_fields = pre ++ f :: post ->
  (forall g, g ∈ pre -> dict_has g d = true) ->
  dict_has f d = false ->
  validate (JDict d) = Reject (MissingField f).
Proof.
  intros Hsplit Hpre Hf.
  unfold Processor.validate_sensor_data, Processor.validate_body.
  rewrite first_missing_dict, Hsplit.
  assert (Hfind : List.find (fun g => negb (dict_has g d)) (pre ++ f :: post)
                  = Some f).
  { clear Hsplit. induction pre as [|g pre IH]; simpl.
    - by rewrite Hf.
    - rewrite (Hpre g) by (apply elem_of_cons; by left). simpl.
      apply IH. intros g' Hg'. apply Hpre. apply elem_of_cons. by right. }
  by rewrite Hfind.
Qed.

(** X3: when the value of an accepted reading is replaced, the verdict
    depends on [float] of the new value alone: accepted inside the valid
    range, out of range outside it, an invalid value when [float] raises
    ValueError or TypeError, and the generic validation error for any
    other exception. *)
Theorem value_replaced_verdict d raw :
  validate (JDict d) = Accept ->
  exists t def,
    dict_get "sensor_type" d = Some (JStr t) /\
    assoc t SENSOR_TYPES = Some def /\
    validate (JDict (with_field "value" raw d)) =
    match py_float float_of_string raw with
    | Ok v => if in_valid_range def v then Accept
              else Reject (ValueOutOfRange v (valid_range def))
    | Raise ValueError | Raise TypeError => Reject InvalidValue
    | Raise e => Reject (ValidationError e)
    end.
Proof. apply value_set_verdict. Qed.

(** X4: an integer value is compared exactly while its magnitude is
    below 2^53, and from 2^1024 on [float] overflows: the reading is then
    rejected with the generic validation error, not as an invalid or an
    out-of-range value. *)
Theorem integer_value_verdict d n :
  validate (JDict d) = Accept ->
  exists t def,
    dict_get "sensor_type" d = Some (JStr t) /\
    assoc t SENSOR_TYPES = Some def /\
    (Z.abs n < 2 ^ 53 ->
     validate (JDict (with_field "value" (JInt n) d)) =
       if (fst (valid_range def) <=? n) && (n <=? snd (valid_range def))
       then Accept
       else Reject (ValueOutOfRange (of_int n) (valid_range def))) /\
    (2 ^ 1024 <= Z.abs n ->
     validate (JDict (with_field "value" (JInt n) d)) =
       Reject (ValidationError OverflowError)).
Proof.
  intros Hacc.
  destruct (value_set_verdict _ _ d (JInt n) Hacc) as (t & def & Ht & Hd & Hv).
  exists t, def. split; [done|]. split; [done|]. split.
  - intros Hsmall. rewrite Hv. simpl py_float.
    rewrite (float_of_int_small n Hsmall).
    unfold in_valid_range, between, of_int, fle.
    destruct (valid_range def) as [lo hi]. simpl fst. simpl snd.
    assert (Hb : forall a b, Qle_bool (inject_Z a) (inject_Z b) = (a <=? b)).
    { intros a b. destruct (Z.leb_spec a b) as [H|H].
      - apply Qle_bool_iff. by rewrite <- Zle_Qle.
      - destruct (Qle_bool (inject_Z a) (inject_Z b)) eqn:E; [|done].
        apply Qle_bool_iff in E. rewrite <- Zle_Qle in E. lia. }
    by rewrite !Hb.
  - intros Hhuge. rewrite Hv. simpl py_float.
    by rewrite (float_of_int_huge n Hhuge).
Qed.

(** X5: when the timestamp of an accepted reading is replaced, a str
    that parses keeps the reading accepted, a str that does not parse
    gives an invalid timestamp, and a value that is not a str gives the
    generic validation error (TypeError). *)
Theorem timestamp_replaced_verdict d ts :
  validate (JDict d) = Accept ->
  validate (JDict (with_field "timestamp" ts d)) =
  match ts with
  | JStr s => if strptime_ok s then Accept else Reject InvalidTimestamp
  | _ => Reject (ValidationError TypeError)
  end.
Proof.
  intros (d' & t & def & v & [= <-] & Ha)%validate_accept_inv.
  destruct Ha as [Hf Ht Hd (raw & Hraw & Hv) Hr _ Hloc].
  unfold with_field.
  rewrite validate_with_fields by (by apply forallb_has_set).
  rewrite (dict_get_set_ne "sensor_type" "timestamp"), Ht by done. run.
  rewrite Hd, (dict_get_set_ne "value" "timestamp"), Hraw by done. run.
  rewrite Hv, Hr, dict_get_set_eq.
  destruct ts as [|b|n|x|s|l|d']; try done.
  destruct (strptime_ok s); [|done].
  by rewrite location_checks_set, Hloc.
Qed.

(** X6: when the two coordinates of an accepted reading are replaced,
    the reading is rejected with invalid coordinates unless both are
    numbers (a bool counts as one), rejected as out of bounds unless
    both lie inside the bounds, and accepted otherwise. *)
Theorem coordinates_replaced_verdict d lat lon :
  validate (JDict d) = Accept ->
  validate (JDict (with_coordinates lat lon d)) =
  if negb (is_number lat) || negb (is_number lon)
  then Reject InvalidCoordinates
  else if negb (in_bounds lat lon) then Reject CoordinatesOutOfBounds
  else Accept.
Proof.
  intros (d' & t & def & v & [= <-] & Ha)%validate_accept_inv.
  destruct Ha as [Hf Ht Hd (raw & Hraw & Hv) Hr (ts & Hts & Hok) Hloc].
  apply location_checks_accept_inv in Hloc
    as (loc & coords & lat0 & lon0 & zone & Hloc).
  rewrite validate_with_fields by (by apply with_coordinates_has).
  rewrite !with_coordinates_get by done.
  rewrite Ht. run. rewrite Hd, Hraw. run. rewrite Hv, Hr, Hts, Hok.
  by rewrite (location_checks_with_coordinates _ _ _ _ _ _ lat lon Hloc).
Qed.

(** X7: when the sensor type of an accepted reading is replaced by an
    object that is no key of the catalogue, the reading is rejected with
    an invalid sensor type carrying that object; when it is replaced by
    a list or a dict, the reading is rejected with the generic validation
    error (TypeError). *)
Theorem sensor_type_replaced_verdict d x :
  validate (JDict d) = Accept ->
  (hashable x = false ->
   validate (JDict (with_field "sensor_type" x d)) =
     Reject (ValidationError TypeError)) /\
  (hashable x = true ->
   (forall s, x = JStr s -> assoc s SENSOR_TYPES = None) ->
   validate (JDict (with_field "sensor_type" x d)) =
     Reject (InvalidSensorType x)).
Proof.
  intros (d' & t & def & v & [= <-] & Ha)%validate_accept_inv.
  destruct Ha as [Hf _ _ _ _ _ _].
  unfold with_field.
  rewrite validate_with_fields by (by apply forallb_has_set).
  rewrite dict_get_set_eq. run. split.
  - intros Hh. by destruct x.
  - intros Hh Hx. destruct x as [|b|n|f|s|l|d']; try done.
    run. by rewrite (Hx s).
Qed.

End ValidatorProperties.

Section EnricherProperties.
Import EnrichFacts.
Variable float_of_string : string -> option pyfloat.
Variable strptime_ok : string -> bool.
Abbreviation validate :=
  (Processor.validate_sensor_data float_of_string strptime_ok).
Abbreviation process := (process_sensor_data float_of_string).

(** X8: processing a processed reading again gives what processing the
    original reading at the later time gives; in particular processing
    twice with one clock value is processing once. *)
Theorem process_again now now' data :
  process_sensor_data float_of_string now'
    (process_sensor_data float_of_string now data) =
  process_sensor_data float_of_string now' data.
Proof.
  unfold process_sensor_data at 2.
  destruct (process_body float_of_string now data) as [p|e] eqn:E; [|done].
  apply process_body_inv in E as (d & x & raw & v & def & -> & Hx & Hraw &
                                  Hv & Hd & ->).
  unfold process_sensor_data.
  rewrite (process_body_enriched _ now now' d x raw v def) by done.
  assert (E' : process_body float_of_string now' (JDict d) =
               Ok (JDict (enrich d now' (categorize (thresholds def) v)
                            "stable" (units def)))).
  { unfold process_body. run. rewrite Hx. run. rewrite Hraw. run.
    rewrite Hv. run. by rewrite Hd. }
  by rewrite E'.
Qed.

(** X9: [process_sensor_data] returns either its input unchanged or a
    dict that agrees with the input dict on every key other than unit,
    trend, status_category and processed_timestamp (so the value is
    never altered). *)
Theorem process_keeps_other_fields now data :
  process now data = data \/
  exists d p,
    data = JDict d /\ process now data = JDict p /\
    forall k, k <> "unit" -> k <> "trend" -> k <> "status_category" ->
              k <> "processed_timestamp" ->
              dict_get k p = dict_get k d.
Proof.
  unfold process_sensor_data.
  destruct (process_body float_of_string now data) as [p|e] eqn:E;
    [|by left].
  apply process_body_inv in E as (d & x & raw & v & def & -> & _ & _ & _ &
                                  _ & ->).
  right. eexists _, _. split; [done|]. split; [done|].
  intros k ? ? ? ?. by apply enrich_other.
Qed.

(** X10: an accepted reading whose value is an integer always gets the
    name of a band that contains the value, never "unknown": the bands
    of every catalogue entry leave no integer of the valid range out. *)
Theorem integer_reading_categorized now d n :
  validate (JDict d) = Accept ->
  (exists raw, dict_get "value" d = Some raw /\
               py_float float_of_string raw = Ok (of_int n)) ->
  exists t def p c b,
    dict_get "sensor_type" d = Some (JStr t) /\
    assoc t SENSOR_TYPES = Some def /\
    process now (JDict d) = JDict p /\
    dict_get "status_category" p = Some (JStr c) /\
    c <> "unknown" /\ (c, b) ∈ thresholds def /\ in_band b (of_int n).
Proof.
  intros (d' & t & def & v & [= <-] & Ha)%validate_accept_inv
         (raw & Hraw & Hn).
  assert (v = of_int n) as ->.
  { destruct Ha as [_ _ _ (raw' & Hraw' & Hv) _ _ _]. congruence. }
  destruct (catalog_covers_integers t def) as [Hc Hu]; [apply Ha|].
  assert (Hcat := covers_categorized_Z def n Hc (acc_range _ _ _ _ _ _ Ha)).
  destruct Hcat as (b & Hb & Hin).
  exists t, def. eexists. exists (categorize (thresholds def) (of_int n)), b.
  split; [apply Ha|]. split; [apply Ha|].
  split; [by apply (process_accepted _ _ _ _ _ _ _ Ha)|].
  split; [apply enrich_category|].
  split; [|done].
  apply categorized_not_unknown; [done|]. by exists b.
Qed.

(** X11: for temperature, humidity, noise and traffic, whose bands share
    their end points, every accepted reading gets the name of a band
    that contains its value, never "unknown". *)
Theorem shared_endpoints_always_categorized now d t :
  validate (JDict d) = Accept ->
  dict_get "sensor_type" d = Some (JStr t) ->
  t ∈ ["temperature"; "humidity"; "noise"; "traffic"] ->
  exists def v p c b,
    assoc t SENSOR_TYPES = Some def /\
    (exists raw, dict_get "value" d = Some raw /\
                 py_float float_of_string raw = Ok v) /\
    process now (JDict d) = JDict p /\
    dict_get "status_category" p = Some (JStr c) /\
    c <> "unknown" /\ (c, b) ∈ thresholds def /\ in_band b v.
Proof.
  intros (d' & t' & def & v & [= <-] & Ha)%validate_accept_inv Ht Hin.
  assert (t' = t) as -> by (destruct Ha; congruence).
  assert (Hdef : assoc t SENSOR_TYPES = Some def) by apply Ha.
  assert (Hc : covers 0 def = true).
  { repeat (apply elem_of_cons in Hin as [->|Hin];
            [vm_compute in Hdef; by injection Hdef as <-|]).
    by apply elem_of_nil in Hin. }
  destruct (catalog_covers_integers t def Hdef) as [_ Hu].
  destruct (covers_categorized_Q def v Hc (acc_range _ _ _ _ _ _ Ha))
    as (b & Hb & Hinb).
  exists def, v. eexists. exists (categorize (thresholds def) v), b.
  split; [done|]. split; [apply Ha|].
  split; [by apply (process_accepted _ _ _ _ _ _ _ Ha)|].
  split; [apply enrich_category|].
  split; [|done].
  apply categorized_not_unknown; [done|]. by exists b.
Qed.

End EnricherProperties.

Section RouterProperties.
Import Topic TopicFacts.
Variable float_of_string : string -> option pyfloat.
Variable strptime_ok : string -> bool.
Abbreviation validate :=
  (Processor.validate_sensor_data float_of_string strptime_ok).
Abbreviation process := (process_sensor_data float_of_string).
Abbreviation route := (Manager.on_message float_of_string strptime_ok).
Abbreviation routed' := (routed float_of_string strptime_ok).

(** X12: a reading that the processor's validator accepts also passes
    the manager's own validator for the sensor type it declares; so a
    message whose topic ends in [.../sensor_id/sensor_type] with that
    same sensor type is stored under that type and id. *)
Theorem accepted_reading_is_stored st now msg d t id :
  payload msg = Some (JDict d) ->
  from_end 1 (split_slash (topic msg)) = Ok t ->
  from_end 2 (split_slash (topic msg)) = Ok id ->
  validate (JDict d) = Accept ->
  dict_get "sensor_type" d = Some (JStr t) ->
  Manager.validate_sensor_data float_of_string (JDict d) t = true /\
  route st now msg =
    (Ok tt, stored st t id (process now (JDict d)),
     dispatched st t (process now (JDict d))).
Proof.
  intros Hp H1 H2 Hacc Ht.
  assert (Hm : Manager.validate_sensor_data float_of_string (JDict d) t = true).
  { apply validate_accept_inv in Hacc as (d' & t' & def & v & [= <-] & Ha).
    destruct Ha as [Hf Ht' Hd (raw & Hraw & Hv) Hr _ Hloc].
    assert (t' = t) as -> by congruence.
    apply location_checks_accept_inv in Hloc
      as (loc & coords & lat & lon & zone & Hloc).
    destruct Hloc as [Hl Hc Hlat Hlon _ _ Hz _].
    rewrite forallb_forall in Hf.
    assert (Hhas : forall f, f ∈ required_fields -> dict_has f d = true).
    { intros f Hf'. apply Hf. by apply list_elem_of_In. }
    unfold Manager.validate_sensor_data, Manager.validate_body.
    rewrite all_in_dict. simpl forallb.
    rewrite !Hhas by (unfold required_fields; set_solver).
    cbn [andb negb]. run. rewrite Hl. run. cbn [is_dict].
    rewrite all_in_dict. unfold dict_has. simpl forallb.
    rewrite Hz, Hc. cbn [andb negb]. run. cbn [is_dict].
    rewrite all_in_dict. unfold dict_has. simpl forallb.
    rewrite Hlat, Hlon. cbn [andb negb].
    destruct (assoc t ranges) as [[lo hi]|] eqn:Hrange; [|done].
    apply ranges_agree in Hrange as (def' & Hd' & Hr').
    assert (def' = def) as -> by congruence.
    rewrite Hraw. run. rewrite Hv. run.
    unfold in_valid_range in Hr. rewrite Hr' in Hr. simpl in Hr.
    by rewrite Hr. }
  split; [done|].
  rewrite on_message_routed. unfold routed. rewrite Hp, H1, H2, Hm.
  by rewrite Hacc.
Qed.

End RouterProperties.

Section StoreProperties.
Import ReaderFacts.
Variable float_of_string : string -> option pyfloat.
Variable strptime_ok : string -> bool.
Abbreviation route := (Manager.on_message float_of_string strptime_ok).
Abbreviation routed' := (routed float_of_string strptime_ok).

(** X13: once a message of a sensor type that has a buffer is stored,
    [get_latest_data] for that type returns a map that holds the new
    reading under the sensor id, and [get_buffer_data] returns a list
    that ends with the new reading: with limit 1 just that reading. *)
Theorem stored_reading_is_read_back st now msg t id p :
  routed' now msg = Some (t, id, p) ->
  is_Some (data_buffer st !! t) ->
  t <> EmptyString ->
  (0 < buffer_size st)%nat ->
  let st' := snd (fst (route st now msg)) in
  (exists m, get_latest_data st' (JStr t) = Ok (OfType m) /\
             m !! id = Some p) /\
  (exists buf, get_buffer_data st' (JStr t) JNull = Ok buf /\
               last buf = Some p) /\
  get_buffer_data st' (JStr t) (JInt 1) = Ok [p].
Proof.
  intros Hr [buf Hbuf] Hne Hsize st'. subst st'.
  rewrite on_message_routed, Hr. cbn [fst snd].
  destruct (stored_buffer st t id p t buf Hbuf) as [Hb _].
  rewrite String.eqb_refl in Hb.
  assert (Hl := stored_latest st t id p).
  set (st' := stored st t id p) in *. clearbody st'.
  apply String.eqb_neq in Hne.
  split; [|split].
  - unfold get_latest_data, get_latest_data_body. simpl. rewrite Hne. simpl.
    rewrite Hb. rewrite bool_decide_eq_true_2 by (by eexists). simpl.
    rewrite Hl. simpl. eexists. split; [done|].
    by rewrite lookup_insert_eq.
  - unfold get_buffer_data, get_buffer_data_body. simpl.
    rewrite Hb. rewrite bool_decide_eq_true_2 by (by eexists). simpl.
    eexists. split; [done|].
    unfold push.
    destruct (Nat.ltb_spec (buffer_size st) (length (buf ++ [p]))) as [H|H].
    + destruct buf as [|y buf]; simpl in *; [lia|]. by rewrite last_snoc.
    + by rewrite last_snoc.
  - unfold get_buffer_data, get_buffer_data_body. simpl.
    rewrite Hb. rewrite bool_decide_eq_true_2 by (by eexists). simpl.
    f_equal. change (Pos.to_nat 1) with 1%nat.
    by apply last_n_push_one.
Qed.


(** X15: [on_message] never changes the callbacks, the buffer size, the
    connection fields or the set of buffered types; a stored message
    changes neither the buffer nor the latest readings of another
    sensor type, nor the latest reading of another sensor of its own
    type. *)
Theorem on_message_frame st now msg :
  let st' :=
    snd (fst (Manager.on_message float_of_string strptime_ok st now msg)) in
  callbacks st' = callbacks st /\
  buffer_size st' = buffer_size st /\
  connected st' = connected st /\
  reconnect_delay st' = reconnect_delay st /\
  max_reconnect_attempts st' = max_reconnect_attempts st /\
  dom (data_buffer st') = dom (data_buffer st) /\
  (routed float_of_string strptime_ok now msg = None -> st' = st) /\
  (forall t id p, routed float_of_string strptime_ok now msg = Some (t, id, p) ->
     (forall t', t' <> t ->
        data_buffer st' !! t' = data_buffer st !! t' /\
        sensor_data st' !! t' = sensor_data st !! t') /\
     (forall id', id' <> id ->
        default ∅ (sensor_data st' !! t) !! id' =
        default ∅ (sensor_data st !! t) !! id')).
Proof.
  intros st'. subst st'. rewrite on_message_routed.
  destruct (routed' now msg) as [[[t id] p]|] eqn:Hr; cbn [fst snd].
  - destruct (stored_fields st t id p) as (H1 & H2 & H3 & H4 & H5 & H6).
    do 6 (split; [done|]). split; [done|].
    intros t0 id0 p0 [= <- <- <-]. split.
    + intros t' Hne. split;
        [by apply stored_buffer_ne|by apply stored_latest_ne].
    + intros id' Hne. rewrite stored_latest. simpl.
      by rewrite lookup_insert_ne.
  - do 6 (split; [done|]). split; [done|]. intros t id p. discriminate.
Qed.

(** X16: for a sensor type that has a buffer, [get_buffer_data] returns
    a suffix of the buffer: the last [n] entries (all of them when there
    are fewer) for an int limit [n > 0], and the whole buffer when the
    limit is None, zero or negative. *)
Theorem buffer_limit st s buf limit :
  data_buffer st !! s = Some buf ->
  exists r,
    get_buffer_data st (JStr s) limit = Ok r /\
    r `suffix_of` buf /\
    (forall n, limit = JInt n -> 0 < n ->
       r = last_n (Z.to_nat n) buf /\
       length r = (Z.to_nat n `min` length buf)%nat) /\
    (forall n, limit = JInt n -> n <= 0 -> r = buf) /\
    (limit = JNull -> r = buf).
Proof.
  intros Hbuf. unfold get_buffer_data, get_buffer_data_body. simpl.
  rewrite Hbuf. rewrite bool_decide_eq_true_2 by (by eexists). simpl.
  destruct (positive_limit limit) as [k|] eqn:Hk; simpl.
  - exists (last_n k buf). split; [done|]. split; [apply last_n_suffix|].
    split; [|split].
    + intros n -> Hn. simpl in Hk.
      rewrite (proj2 (Z.ltb_lt _ _) Hn) in Hk. injection Hk as <-.
      split; [done|]. rewrite length_last_n. lia.
    + intros n -> Hn. simpl in Hk.
      rewrite (proj2 (Z.ltb_ge _ _) Hn) in Hk. discriminate.
    + intros ->. discriminate.
  - exists buf. split; [done|]. split; [done|]. split; [|done].
    intros n -> Hn. simpl in Hk.
    rewrite (proj2 (Z.ltb_lt _ _) Hn) in Hk. discriminate.
Qed.

(** X17: every reading that [generate_sensor_data] builds lacks a
    timestamp, so [on_message] drops every message that the simulator
    publishes, whatever numbers were drawn. *)
Theorem simulator_messages_are_dropped st now sensor_id sensor_type
    location value lat lon battery data :
  Simulator.generate_sensor_data sensor_type location value lat lon battery
    = Ok data ->
  Manager.validate_sensor_data float_of_string data sensor_type = false /\
  route st now (Simulator.published sensor_id sensor_type data) =
    (Ok tt, st, []).
Proof.
  unfold Simulator.generate_sensor_data.
  destruct (assoc sensor_type Simulator.sensor_units) as [u|]; [|discriminate].
  intros [= <-].
  assert (Hm : forall t,
    Manager.validate_sensor_data float_of_string
      (JDict [("value", JFloat value); ("unit", JStr u);
              ("location",
               JDict [("zone", JStr location);
                      ("coordinates",
                       JDict [("lat", JFloat lat); ("lon", JFloat lon)])]);
              ("status", JStr "active"); ("battery", JInt battery)]) t
    = false) by done.
  split; [apply Hm|].
  rewrite on_message_routed. unfold routed. simpl payload.
  destruct (from_end 1 _); [|done]. destruct (from_end 2 _); [|done].
  by rewrite Hm.
Qed.

(** X18: from a topic [<prefix>/<sensor_id>/<sensor_type>] whose last
    two segments hold no [/], the router recovers exactly that sensor
    type and sensor id; a message whose topic holds no [/] at all is
    dropped. *)
Theorem topic_convention st now prefix sensor_id sensor_type body :
  no_slash sensor_id = true ->
  no_slash sensor_type = true ->
  let topic_ := prefix +:+ String slash (sensor_id +:+ String slash sensor_type) in
  from_end 1 (split_slash topic_) = Ok sensor_type /\
  from_end 2 (split_slash topic_) = Ok sensor_id /\
  split_slash (Simulator.publish_topic sensor_id sensor_type) =
    ["mossoro"; "sensors"; sensor_id; sensor_type] /\
  (forall flat, no_slash flat = true ->
     route st now {| topic := flat; payload := body |} = (Ok tt, st, [])).
Proof.
  intros Hid Hty topic_. subst topic_.
  assert (Hsplit : forall pre,
    split_slash (pre +:+ String slash (sensor_id +:+ String slash sensor_type))
    = split_slash pre ++ [sensor_id; sensor_type]).
  { intros pre. rewrite !split_slash_app.
    by rewrite (split_slash_no_slash _ Hid), (split_slash_no_slash _ Hty). }
  split; [|split; [|split]].
  - rewrite Hsplit.
    change [sensor_id; sensor_type] with ([sensor_id] ++ [sensor_type]).
    rewrite app_assoc. apply from_end_1_app.
  - rewrite Hsplit. apply from_end_2_app.
  - change (Simulator.publish_topic sensor_id sensor_type) with
      ("mossoro/sensors" +:+
       String slash (sensor_id +:+ String slash sensor_type)).
    by rewrite Hsplit.
  - intros flat Hflat. rewrite on_message_routed. unfold routed. simpl.
    destruct body as [data|]; [|done].
    by rewrite (split_slash_no_slash _ Hflat).
Qed.

End StoreProperties.

Section ConnectionProperties.
Import HandlerFacts.

(** X19: whatever the broker answers, [connect] calls [reconnect] at
    most [max_reconnect_attempts] times, in a row from attempt 0, sleeps
    at most once per attempt, returns or raises ConnectionError (then
    having used every attempt), never touches the store or the
    callbacks, and leaves the delay multiplied by two once per failed
    attempt: the delay is never set back. *)
Theorem connect_is_bounded c st r st' evs :
  connect c st = Some (r, st', evs) ->
  same_store st st' /\
  tries evs = seq 0 (length (tries evs)) /\
  (length (tries evs) <= max_reconnect_attempts st)%nat /\
  (length (sleeps evs) <= length (tries evs))%nat /\
  (r = Ok tt \/ r = Raise ConnectionError) /\
  (r = Raise ConnectionError ->
   connected st' = false /\
   length (tries evs) = max_reconnect_attempts st) /\
  (exists k, (k <= length (tries evs))%nat /\
             reconnect_delay st' = reconnect_delay st * 2 ^ Z.of_nat k).
Proof.
  unfold connect. destruct (is_connected c).
  { intros [= <- <- <-]. split; [apply same_store_refl|].
    split; [done|]. split; [simpl; lia|]. split; [simpl; lia|].
    split; [by left|]. split; [discriminate|].
    exists 0%nat. simpl. lia. }
  destruct (connect_result c).
  - intros H. apply try_reconnect_any in H
      as (Hs & Ht & Hb & Hsl & Hr & Hraise & Hd).
    split; [done|]. do 4 (split; [done|]). split; [|done].
    intros Hrc. destruct (Hraise Hrc) as [? Hall]. split; [done|].
    by apply Hall.
  - intros [= <- <- <-]. split; [by repeat split|].
    split; [done|]. split; [simpl; lia|]. split; [simpl; lia|].
    split; [by left|]. split; [discriminate|].
    exists 0%nat. simpl. lia.
Qed.

(** X20: when [connect()] fails and the reconnection succeeds at attempt
    [k] after [k] failures, with [k] below the maximum, [connect] returns
    normally with the manager connected, after [k + 1] attempts and [k]
    sleeps of 2, 4, ... 2^k times the initial delay, which is left
    multiplied by 2^k. *)
Theorem connect_recovers c st e k :
  is_connected c = false ->
  connect_result c = Some e ->
  (forall i, (i < k)%nat -> reconnect_result c i <> None) ->
  reconnect_result c k = None ->
  (k < max_reconnect_attempts st)%nat ->
  exists st' evs,
    connect c st = Some (Ok tt, st', evs) /\
    connected st' = true /\
    reconnect_delay st' = reconnect_delay st * 2 ^ Z.of_nat k /\
    tries evs = seq 0 (S k) /\
    sleeps evs = map (fun i => reconnect_delay st * 2 ^ Z.of_nat i) (seq 1 k).
Proof.
  intros Hic Hcr Hfail Hok Hlt. unfold connect, _try_reconnect.
  rewrite Hic, Hcr.
  destruct (reconnect_loop_succeeds c k
              (S (max_reconnect_attempts (set_connected st false))) 0
              (set_connected st false))
    as (st' & evs & Hrun & Hc & Hd & Ht & Hs); try done.
  { intros i Hi. apply Hfail. lia. }
  { simpl. lia. }
  rewrite Hrun. simpl. by exists st', evs.
Qed.

(** X21: [on_connect] with result code 0 marks the manager connected and
    subscribes to the five topics of the list in order with QoS 0,
    whether or not some of the calls fail; with any other code it marks
    the manager disconnected and subscribes to nothing; the store is
    left alone.  The last segments of the five topics are exactly the
    sensor types that a new manager keeps a buffer for. *)
Theorem on_connect_subscribes subscribe st rc :
  let out := Handlers.on_connect subscribe st rc in
  sensor_data (fst out) = sensor_data st /\
  data_buffer (fst out) = data_buffer st /\
  callbacks (fst out) = callbacks st /\
  connected (fst out) = (rc =? 0) /\
  subscriptions (snd out) = (if rc =? 0 then Handlers.topics else []) /\
  (forall t,
     is_Some (data_buffer init !! t) <->
     exists topic qos, (topic, qos) ∈ Handlers.topics /\
                       from_end 1 (split_slash topic) = Ok t).
Proof.
  intros out. subst out. unfold Handlers.on_connect.
  assert (Hsub : forall ts,
            subscriptions (Handlers.subscribe_all subscribe ts) = ts).
  { induction ts as [|[topic qos] ts IH]; simpl; [done|].
    destruct (subscribe topic qos) as [code|e]; [destruct (code =? 0)|];
      simpl; by rewrite IH. }
  split; [by destruct (rc =? 0)|]. split; [by destruct (rc =? 0)|].
  split; [by destruct (rc =? 0)|]. split; [by destruct (rc =? 0)|].
  split.
  { destruct (rc =? 0); [exact (Hsub Handlers.topics)|done]. }
  intros t.
  assert (H1 : is_Some (data_buffer init !! t) <->
               t ∈ ["temperature"; "humidity"; "air_quality"; "noise";
                    "traffic"]).
  { split.
    - intros [buf Hbuf]. unfold init in Hbuf. simpl in Hbuf.
      repeat (apply lookup_insert_Some in Hbuf as [[<- _]|[_ Hbuf]];
              [set_solver|]).
      by rewrite lookup_empty in Hbuf.
    - intros Hin.
      repeat (apply elem_of_cons in Hin as [->|Hin]; [by eexists|]).
      by apply elem_of_nil in Hin. }
  rewrite H1. split.
  - intros Hin. exists ("mossoro/sensors/+/" +:+ t), 0.
    repeat (apply elem_of_cons in Hin as [->|Hin];
            [split; [apply list_elem_of_In; simpl; tauto|reflexivity]|]).
    by apply elem_of_nil in Hin.
  - intros (topic & qos & Hin & Ht). unfold Handlers.topics in Hin.
    repeat (apply elem_of_cons in Hin as [[= -> ->]|Hin];
            [vm_compute in Ht; injection Ht as Ht; rewrite <- Ht;
             apply list_elem_of_In; simpl; tauto|]).
    by apply elem_of_nil in Hin.
Qed.

(** X22: [on_disconnect] always ends and never touches the store.  After
    a clean disconnect (code 0) it only marks the manager disconnected
    and calls [reconnect] not once; after any other code it runs the
    reconnection routine, which reconnects at once without sleeping when
    the first attempt succeeds and lets ConnectionError out of the
    handler when every attempt fails. *)
Theorem on_disconnect_behaviour c st rc :
  exists r st' evs,
    Handlers.on_disconnect c st rc = Some (r, st', evs) /\
    same_store st st' /\
    (rc = 0 -> r = Ok tt /\ evs = [] /\ connected st' = false /\
               reconnect_delay st' = reconnect_delay st) /\
    (rc <> 0 -> reconnect_result c 0 = None ->
     (0 < max_reconnect_attempts st)%nat ->
     r = Ok tt /\ evs = [Reconnect 0] /\ connected st' = true /\
     reconnect_delay st' = reconnect_delay st) /\
    (rc <> 0 -> (forall i, reconnect_result c i <> None) ->
     r = Raise ConnectionError /\ connected st' = false /\
     length (tries evs) = max_reconnect_attempts st).
Proof.
  unfold Handlers.on_disconnect.
  destruct (Z.eqb_spec rc 0) as [->|Hrc]; simpl.
  - eexists _, _, _. split; [done|]. split; [by repeat split|].
    split; [done|]. split; [done|]. done.
  - destruct (reconnect_loop_total c
                (S (max_reconnect_attempts (set_connected st false))) 0%nat
                (set_connected st false)) as [[[r0 st0] evs0] Hrun]; [lia|].
    assert (Hsome : is_Some (_try_reconnect c (set_connected st false))).
    { unfold _try_reconnect. rewrite Hrun. simpl.
      destruct r0 as [[]|]; [by eexists|].
      destruct (negb (connected st0)); by eexists. }
    destruct Hsome as [[[r st'] evs] Htry]. rewrite Htry.
    exists r, st', evs. split; [done|].
    destruct (try_reconnect_any _ _ _ _ _ Htry)
      as (Hs & Ht & Hb & Hsl & Hr & Hraise & Hd).
    split; [done|]. split; [done|]. split.
    + intros _ Hok Hmax. unfold _try_reconnect in Htry. simpl in Htry.
      rewrite (proj2 (Nat.ltb_lt _ _) Hmax), Hok in Htry. simpl in Htry.
      by injection Htry as <- <- <-.
    + intros _ Hfail.
      destruct (reconnect_loop_fails c (max_reconnect_attempts st)
                  (S (max_reconnect_attempts st)) 0 (set_connected st false))
        as (st1 & Hrun1 & Hc1 & _); try done; [lia|].
      unfold _try_reconnect in Htry. simpl max_reconnect_attempts in Htry.
      rewrite Hrun1 in Htry. simpl in Htry. rewrite Hc1 in Htry.
      simpl in Htry. injection Htry as <- <- <-.
      destruct (Hraise eq_refl) as [Hc2 Hall]. split; [done|].
      split; [done|]. by apply Hall.
Qed.

(** X23: [disconnect] keeps the registered callbacks, the buffer size
    and the set of buffered types; it marks the manager disconnected
    only when the broker calls return (then [is_connected] answers False
    whatever the client says), and leaves the flag as it was when they
    raise; a second [disconnect] changes nothing in the store. *)
Theorem disconnect_keeps_callbacks c c' st :
  let st' := snd (disconnect c st) in
  callbacks st' = callbacks st /\
  buffer_size st' = buffer_size st /\
  dom (data_buffer st') = dom (data_buffer st) /\
  connected st' =
    match disconnect_result c with None => false | Some _ => connected st end /\
  (disconnect_result c = None -> Handlers.is_connected c' st' = false) /\
  sensor_data (snd (disconnect c' st')) = sensor_data st' /\
  data_buffer (snd (disconnect c' st')) = data_buffer st'.
Proof.
  intros st'. subst st'. unfold disconnect. simpl.
  split; [by destruct (disconnect_result c)|].
  split; [by destruct (disconnect_result c)|].
  split; [destruct (disconnect_result c); simpl; apply dom_fmap_L|].
  split; [by destruct (disconnect_result c)|].
  split; [by intros ->|].
  split; [done|].
  destruct (disconnect_result c), (disconnect_result c'); simpl;
    by rewrite <- map_fmap_compose.
Qed.

End ConnectionProperties.

Section AccessorProperties.
Import AccessorFacts.

(** X24: for a zone of [ZONES], [get_zone_summary] returns the zone, its
    coordinates, its sensor types and the clock value; the coordinates
    are numbers inside the bounds that the validator checks, and
    [get_sensor_thresholds] has bands for every sensor type listed.  For
    any other argument, hashable or not, the summary is the empty dict. *)
Theorem zone_summary_is_consistent now zone :
  (forall z types, zone = JStr z -> assoc z ZONES = Some types ->
     exists lat lon,
       get_zone_summary now zone =
         JDict [("zone", JStr z);
                ("coordinates", JDict [("lat", lat); ("lon", lon)]);
                ("available_sensors", JList (map JStr types));
                ("summary_timestamp", JStr now)] /\
       is_number lat = true /\ is_number lon = true /\
       in_bounds lat lon = true /\
       forall t, t ∈ types -> get_sensor_thresholds (JStr t) <> []) /\
  ((forall z, zone = JStr z -> assoc z ZONES = None) ->
   get_zone_summary now zone = JDict []).
Proof.
  split.
  - intros z types -> Hz. apply zone_cases in Hz. unfold ZONES in Hz.
    repeat (apply elem_of_cons in Hz as [[= -> ->]|Hz];
            [eexists _, _; split; [reflexivity|];
             split; [reflexivity|]; split; [reflexivity|];
             split; [by vm_compute|];
             intros t Ht;
             repeat (apply elem_of_cons in Ht as [->|Ht]; [by vm_compute|]);
             by apply elem_of_nil in Ht|]).
    by apply elem_of_nil in Hz.
  - intros Hnone. unfold get_zone_summary, get_zone_summary_body.
    destruct zone as [| | | |z| |]; try done. run.
    by rewrite (Hnone z eq_refl).
Qed.

(** X25: data keyed only by sensor types that the manager keeps a buffer
    for is valid for no zone: every zone also expects flood and camera
    readings, which the manager neither subscribes to nor buffers. *)
Theorem buffered_types_satisfy_no_zone zone d :
  (forall k, dict_has k d = true -> is_Some (data_buffer init !! k)) ->
  validate_zone_sensors zone (JDict d) = false.
Proof.
  intros Hkeys. apply not_true_is_false.
  intros (z & types & d' & -> & Hz & [= <-] & Hall)%validate_zone_sensors_true.
  assert (Hflood : "flood" ∈ types).
  { apply zone_cases in Hz. unfold ZONES in Hz.
    repeat (apply elem_of_cons in Hz as [[= -> ->]|Hz]; [set_solver|]).
    by apply elem_of_nil in Hz. }
  destruct (Hkeys "flood" (Hall _ Hflood)) as [buf Hbuf].
  by vm_compute in Hbuf.
Qed.

End AccessorProperties.

(** ** The further properties on samples *)

Module Examples.
Import Sample.

Abbreviation validate := (Processor.validate_sensor_data float_of_string strptime_ok).
Abbreviation process := (process_sensor_data float_of_string).
Abbreviation route := (Manager.on_message float_of_string strptime_ok).

Definition clock : string := "2024-03-01T12:00:01.000000".
Definition warm : list (string * json) :=
  reading "temperature" (JFloat (Fin 27)) "K" "Zona Sul".
Definition rain : list (string * json) :=
  reading "flood" (JInt 40) "mm" "Zona Leste".
Definition bare : list (string * json) :=
  [("value", JInt 1); ("unit", JStr "%")].

(** What the simulator builds for one temperature sensor. *)
Definition simulated : json :=
  JDict [("value", JFloat (Fin (2731 # 100)));
         ("unit", JStr "Â°C");
         ("location",
          JDict [("zone", JStr "Centro");
                 ("coordinates",
                  JDict [("lat", JFloat (Fin (-83 # 16)));
                         ("lon", JFloat (Fin (-1195 # 32)))])]);
         ("status", JStr "active");
         ("battery", JInt 85)].

(** A broker that refuses the connection and the first two
    reconnections. *)
Definition flaky : client :=
  {| is_connected := false;
     connect_result := Some ConnectionError;
     reconnect_result :=
       fun i => if (i <? 2)%nat then Some ConnectionError else None;
     disconnect_result := None |}.

Lemma first_missing_field_reported_witness :
  validate (JDict bare) = Reject (MissingField "timestamp").
Proof.
  apply (first_missing_field_reported float_of_string strptime_ok bare
           ["value"; "unit"] "timestamp" ["sensor_id"; "location"]).
  - reflexivity.
  - intros g Hg. apply elem_of_cons in Hg as [->|Hg]; [reflexivity|].
    apply elem_of_cons in Hg as [->|Hg]; [reflexivity|].
    by apply elem_of_nil in Hg.
  - reflexivity.
Defined.

Lemma value_replaced_verdict_witness :
  exists t def,
    dict_get "sensor_type" warm = Some (JStr t) /\
    assoc t SENSOR_TYPES = Some def /\
    validate (JDict (with_field "value" (JStr "hot") warm)) =
    match py_float float_of_string (JStr "hot") with
    | Ok v => if in_valid_range def v then Accept
              else Reject (ValueOutOfRange v (valid_range def))
    | Raise ValueError | Raise TypeError => Reject InvalidValue
    | Raise e => Reject (ValidationError e)
    end.
Proof.
  apply (value_replaced_verdict float_of_string strptime_ok warm (JStr "hot")).
  reflexivity.
Defined.

Lemma integer_value_verdict_witness :
  exists t def,
    dict_get "sensor_type" warm = Some (JStr t) /\
    assoc t SENSOR_TYPES = Some def /\
    (Z.abs 101 < 2 ^ 53 ->
     validate (JDict (with_field "value" (JInt 101) warm)) =
       if (fst (valid_range def) <=? 101) && (101 <=? snd (valid_range def))
       then Accept
       else Reject (ValueOutOfRange (of_int 101) (valid_range def))) /\
    (2 ^ 1024 <= Z.abs 101 ->
     validate (JDict (with_field "value" (JInt 101) warm)) =
       Reject (ValidationError OverflowError)).
Proof.
  apply (integer_value_verdict float_of_string strptime_ok warm 101).
  reflexivity.
Defined.

Lemma timestamp_replaced_verdict_witness :
  validate (JDict (with_field "timestamp" (JStr "yesterday") warm)) =
  if strptime_ok "yesterday" then Accept else Reject InvalidTimestamp.
Proof.
  apply (timestamp_replaced_verdict float_of_string strptime_ok warm
           (JStr "yesterday")).
  reflexivity.
Defined.

Lemma coordinates_replaced_verdict_witness :
  validate (JDict (with_coordinates (JInt (-5)) (JStr "west") warm)) =
  if negb (is_number (JInt (-5))) || negb (is_number (JStr "west"))
  then Reject InvalidCoordinates
  else if negb (in_bounds (JInt (-5)) (JStr "west"))
       then Reject CoordinatesOutOfBounds
       else Accept.
Proof.
  apply (coordinates_replaced_verdict float_of_string strptime_ok warm
           (JInt (-5)) (JStr "west")).
  reflexivity.
Defined.

Lemma sensor_type_replaced_verdict_witness :
  (hashable (JStr "pressure") = false ->
   validate (JDict (with_field "sensor_type" (JStr "pressure") warm)) =
     Reject (ValidationError TypeError)) /\
  (hashable (JStr "pressure") = true ->
   (forall s, JStr "pressure" = JStr s -> assoc s SENSOR_TYPES = None) ->
   validate (JDict (with_field "sensor_type" (JStr "pressure") warm)) =
     Reject (InvalidSensorType (JStr "pressure"))).
Proof.
  apply (sensor_type_replaced_verdict float_of_string strptime_ok warm
           (JStr "pressure")).
  reflexivity.
Defined.

Lemma integer_reading_categorized_witness :
  exists t def p c b,
    dict_get "sensor_type" rain = Some (JStr t) /\
    assoc t SENSOR_TYPES = Some def /\
    process clock (JDict rain) = JDict p /\
    dict_get "status_category" p = Some (JStr c) /\
    c <> "unknown" /\ (c, b) ∈ thresholds def /\ in_band b (of_int 40).
Proof.
  apply (integer_reading_categorized float_of_string strptime_ok clock rain 40).
  - reflexivity.
  - exists (JInt 40). split; reflexivity.
Defined.

Lemma shared_endpoints_always_categorized_witness :
  exists def v p c b,
    assoc "temperature" SENSOR_TYPES = Some def /\
    (exists raw, dict_get "value" warm = Some raw /\
                 py_float float_of_string raw = Ok v) /\
    process clock (JDict warm) = JDict p /\
    dict_get "status_category" p = Some (JStr c) /\
    c <> "unknown" /\ (c, b) ∈ thresholds def /\ in_band b v.
Proof.
  apply (shared_endpoints_always_categorized float_of_string strptime_ok
           clock warm "temperature").
  - reflexivity.
  - reflexivity.
  - apply elem_of_cons. by left.
Defined.

Lemma accepted_reading_is_stored_witness :
  Manager.validate_sensor_data float_of_string (JDict warm) "temperature"
    = true /\
  route init clock (message_of "temperature" warm) =
    (Ok tt, stored init "temperature" "centro_1" (process clock (JDict warm)),
     dispatched init "temperature" (process clock (JDict warm))).
Proof.
  apply (accepted_reading_is_stored float_of_string strptime_ok init clock
           (message_of "temperature" warm) warm "temperature" "centro_1");
    reflexivity.
Defined.

Lemma stored_reading_is_read_back_witness :
  let st' := snd (fst (route init clock (message_of "temperature" warm))) in
  (exists m, get_latest_data st' (JStr "temperature") = Ok (OfType m) /\
             m !! "centro_1" = Some (process clock (JDict warm))) /\
  (exists buf, get_buffer_data st' (JStr "temperature") JNull = Ok buf /\
               last buf = Some (process clock (JDict warm))) /\
  get_buffer_data st' (JStr "temperature") (JInt 1) =
    Ok [process clock (JDict warm)].
Proof.
  apply (stored_reading_is_read_back float_of_string strptime_ok init clock
           (message_of "temperature" warm) "temperature" "centro_1"
           (process clock (JDict warm))).
  - reflexivity.
  - exists []. reflexivity.
  - discriminate.
  - simpl. lia.
Defined.


Lemma buffer_limit_witness :
  exists r,
    get_buffer_data (stored init "noise" "n1" (JInt 7)) (JStr "noise")
      (JInt 3) = Ok r /\
    r `suffix_of` [JInt 7] /\
    (forall n, JInt 3 = JInt n -> 0 < n ->
       r = last_n (Z.to_nat n) [JInt 7] /\
       length r = (Z.to_nat n `min` length [JInt 7])%nat) /\
    (forall n, JInt 3 = JInt n -> n <= 0 -> r = [JInt 7]) /\
    (JInt 3 = JNull -> r = [JInt 7]).
Proof.
  apply (buffer_limit (stored init "noise" "n1" (JInt 7)) "noise" [JInt 7]
           (JInt 3)).
  reflexivity.
Defined.

Lemma simulator_messages_are_dropped_witness :
  Manager.validate_sensor_data float_of_string simulated "temperature"
    = false /\
  route init clock (Simulator.published "centro_temperature" "temperature"
                      simulated) = (Ok tt, init, []).
Proof.
  apply (simulator_messages_are_dropped float_of_string strptime_ok init clock
           "centro_temperature" "temperature" "Centro" (Fin (2731 # 100))
           (Fin (-83 # 16)) (Fin (-1195 # 32)) 85 simulated).
  reflexivity.
Defined.

Lemma topic_convention_witness :
  let topic_ :=
    "city" +:+ String slash ("centro_1" +:+ String slash "noise") in
  from_end 1 (split_slash topic_) = Ok "noise" /\
  from_end 2 (split_slash topic_) = Ok "centro_1" /\
  split_slash (Simulator.publish_topic "centro_1" "noise") =
    ["mossoro"; "sensors"; "centro_1"; "noise"] /\
  (forall flat, no_slash flat = true ->
     route init clock {| topic := flat; payload := Some (JDict warm) |} =
       (Ok tt, init, [])).
Proof.
  apply (topic_convention float_of_string strptime_ok init clock "city"
           "centro_1" "noise" (Some (JDict warm))); reflexivity.
Defined.

Lemma connect_is_bounded_witness :
  let st' := set_reconnect_delay init 160 in
  let evs := [Reconnect 0; Sleep 10; Reconnect 1; Sleep 20; Reconnect 2;
              Sleep 40; Reconnect 3; Sleep 80; Reconnect 4] in
  same_store init st' /\
  tries evs = seq 0 (length (tries evs)) /\
  (length (tries evs) <= max_reconnect_attempts init)%nat /\
  (length (sleeps evs) <= length (tries evs))%nat /\
  (Raise ConnectionError = Ok tt \/
   @Raise unit ConnectionError = Raise ConnectionError) /\
  (@Raise unit ConnectionError = Raise ConnectionError ->
   connected st' = false /\
   length (tries evs) = max_reconnect_attempts init) /\
  (exists k, (k <= length (tries evs))%nat /\
             reconnect_delay st' = reconnect_delay init * 2 ^ Z.of_nat k).
Proof.
  apply (connect_is_bounded unreachable init (Raise ConnectionError)
           (set_reconnect_delay init 160)
           [Reconnect 0; Sleep 10; Reconnect 1; Sleep 20; Reconnect 2;
            Sleep 40; Reconnect 3; Sleep 80; Reconnect 4]).
  reflexivity.
Defined.

Lemma connect_recovers_witness :
  exists st' evs,
    connect flaky init = Some (Ok tt, st', evs) /\
    connected st' = true /\
    reconnect_delay st' = reconnect_delay init * 2 ^ Z.of_nat 2 /\
    tries evs = seq 0 3 /\
    sleeps evs =
      map (fun i => reconnect_delay init * 2 ^ Z.of_nat i) (seq 1 2).
Proof.
  apply (connect_recovers flaky init ConnectionError 2).
  - reflexivity.
  - reflexivity.
  - intros i Hi. destruct i as [|[|i]]; [discriminate|discriminate|lia].
  - reflexivity.
  - simpl. lia.
Defined.

Lemma buffered_types_satisfy_no_zone_witness :
  validate_zone_sensors (JStr "Zona Sul")
    (JDict [("temperature", JNull); ("traffic", JNull)]) = false.
Proof.
  apply (buffered_types_satisfy_no_zone (JStr "Zona Sul")
           [("temperature", JNull); ("traffic", JNull)]).
  intros k. unfold dict_has. simpl.
  destruct (String.eqb_spec k "temperature") as [->|_]; [by eexists|].
  destruct (String.eqb_spec k "traffic") as [->|_]; [by eexists|].
  discriminate.
Defined.

End Examples.
